(** * Build-log aggregation of jx (package logs): a shallow embedding

    The Go sources embedded here are the functions of package [logs]
    (src/pkg/gits/provider_fake.go, second part of the file):
    [GetTektonPipelinesWithActivePipelineActivity], [createPipelineActivityName],
    [replacePipelineActivityNameWithEnrichedName], [findLegacyPipelineRunBuildNumber],
    [getPipelineRunNamesForActivity], [GetRunningBuildLogs],
    [waitForContainerToStart], [StreamPipelinePersistentLogs] and
    [createBucketHTTPFn].

    Conventions of the embedding:
    - a Go pointer is an [option] ([None] is nil); dereferencing nil panics;
    - a Go [error] value is an [option error] ([None] is nil);
    - a Go [map[string]T] is a [gmap string T]; reading a missing key gives
      the zero value of [T];
    - the Kubernetes, Tekton and jx clients and the [LogWriter] are state
      machines over abstract state types; every call made to them is
      appended to a trace of events;
    - the two unbounded loops ([for len(..) > len(..)] and [for {}]) take
      fuel; running out is the outcome [OutOfFuel]. *)

From Stdlib Require Import ZArith Lia Ascii String Sorting.Sorted.
From stdpp Require Import gmap strings list fin_maps.

Local Open Scope Z_scope.

(** ** Strings *)

(** [strings.ToLower], on ASCII. Kubernetes label values are ASCII
    alphanumerics, '-', '_' and '.', so nothing else reaches it here. *)
Definition lower_ascii (c : ascii) : ascii :=
  let n := nat_of_ascii c in
  if ((65 <=? n)%nat && (n <=? 90)%nat)%bool then ascii_of_nat (n + 32) else c.

Fixpoint ToLower (s : string) : string :=
  match s with
  | EmptyString => EmptyString
  | String c r => String (lower_ascii c) (ToLower r)
  end.

(** [strings.Join]. *)
Fixpoint Join (elems : list string) (sep : string) : string :=
  match elems with
  | [] => ""
  | [e] => e
  | e :: rest => e +:+ sep +:+ Join rest sep
  end.

Fixpoint strip_prefix (p s : string) : option string :=
  match p, s with
  | EmptyString, _ => Some s
  | String a p', String b s' => if Ascii.eqb a b then strip_prefix p' s' else None
  | String _ _, EmptyString => None
  end.

(** [strings.Replace(s, old, new, 1)] for a non-empty [old]: the first
    occurrence only. *)
Fixpoint ReplaceFirst (s old new : string) : string :=
  match strip_prefix old s with
  | Some rest => new +:+ rest
  | None =>
      match s with
      | EmptyString => EmptyString
      | String c s' => String c (ReplaceFirst s' old new)
      end
  end.

(** [strings.Contains]. *)
Fixpoint Contains (s sub : string) : bool :=
  match strip_prefix sub s with
  | Some _ => true
  | None =>
      match s with
      | EmptyString => false
      | String _ s' => Contains s' sub
      end
  end.

(** ** Go values *)

(** A pointer: [None] is nil. *)
Abbreviation ptr := option (only parsing).

(** An error value, as built by a collaborator, by [errors.New] or by
    [errors.Wrap]/[errors.Wrapf] of github.com/pkg/errors. *)
Inductive error : Type :=
| ExternalError (msg : string)
| ErrorsNew (msg : string)
| ErrorsWrap (cause : error) (msg : string).

(** The messages an error carries, outermost first. *)
Fixpoint error_messages (e : error) : list string :=
  match e with
  | ExternalError m => [m]
  | ErrorsNew m => [m]
  | ErrorsWrap c m => m :: error_messages c
  end.

(** [m[k]] on a [map[string]string]: the empty string when [k] is absent. *)
Definition label (m : gmap string string) (k : string) : string :=
  default "" (m !! k).

(** [sort.Slice]: the elements for which [less] holds come first. The Go
    function promises a sorted permutation and no order between elements
    that [less] does not separate; the model is the insertion sort, which
    keeps such elements in their order of arrival. *)
Fixpoint sort_insert {A : Type} (less : A → A → bool) (x : A) (l : list A) : list A :=
  match l with
  | [] => [x]
  | y :: l' => if less y x then y :: sort_insert less x l' else x :: y :: l'
  end.

Fixpoint sortSlice {A : Type} (less : A → A → bool) (l : list A) : list A :=
  match l with
  | [] => []
  | x :: l' => sort_insert less x (sortSlice less l')
  end.

(** ** Resources *)

(** Modelled from the spec: the label keys of package v1
    (pkg/apis/jenkins.io/v1), which is not among the sources. The identity
    attributes are owner, repository, branch and build number; the values
    are those of the label selector that [getPipelineRunNamesForActivity]
    builds and of the comment in [createPipelineActivityName]. *)
Definition LabelOwner : string := "owner".
Definition LabelRepository : string := "repository".
Definition LabelBranch : string := "branch".
Definition LabelBuild : string := "build".

Record PipelineActivitySpec : Type := {
  GitOwner : string;
  GitRepository : string;
  GitBranch : string;
  Build : string
}.

Record PipelineActivity : Type := {
  pa_Name : string;
  pa_Namespace : string;
  pa_Labels : gmap string string;
  pa_Spec : PipelineActivitySpec
}.

Record Param : Type := { param_Name : string; param_Value : string }.

(** A Tekton PipelineRun; the creation timestamp is an instant in seconds. *)
Record PipelineRun : Type := {
  pr_Name : string;
  pr_Labels : gmap string string;
  pr_CreationTimestamp : Z;
  pr_Params : list Param
}.

Inductive PodPhase : Type :=
  PodPending | PodRunning | PodSucceeded | PodFailed | PodUnknown.

Definition PodPhase_eqb (a b : PodPhase) : bool :=
  match a, b with
  | PodPending, PodPending | PodRunning, PodRunning
  | PodSucceeded, PodSucceeded | PodFailed, PodFailed
  | PodUnknown, PodUnknown => true
  | _, _ => false
  end.

Inductive ContainerState : Type := Waiting | Running | Terminated.

Record Container : Type := { c_Name : string }.

Record Pod : Type := {
  pod_Name : string;
  pod_Labels : gmap string string;
  pod_CreationTimestamp : Z;
  pod_Phase : PodPhase;
  pod_Containers : list Container;
  pod_Statuses : list ContainerState
}.

(** The fields of [builds.BuildPodInfo] that [GetRunningBuildLogs] reads. *)
Record BuildPodInfo : Type := {
  Organisation : string;
  Repository : string;
  Branch : string;
  bpi_Build : string
}.

(** ** Name Correlator *)

Definition createPipelineActivityName (labels : gmap string string) (buildNumber : string) : string :=
  let repository := label labels LabelRepository in
  let repository := if String.eqb repository "" then label labels "repo" else repository in
  ToLower (label labels LabelOwner +:+ "/" +:+ repository +:+ "/" +:+
           label labels LabelBranch +:+ " #" +:+ buildNumber).

(** [paMap[newName] = paMap[formerName]; delete(paMap, formerName)]: the
    values are pointers, and a missing [formerName] reads as nil. *)
Definition replacePipelineActivityNameWithEnrichedName
    (paMap : gmap string (ptr PipelineActivity)) (formerName newName : string)
    : gmap string (ptr PipelineActivity) :=
  delete formerName (<[newName := default None (paMap !! formerName)]> paMap).

(** The loop keeps the value of the last parameter named [build_id]. *)
Definition findLegacyPipelineRunBuildNumber (pipelineRun : PipelineRun) : string :=
  fold_left
    (fun buildNumber p =>
       if String.eqb (param_Name p) "build_id" then param_Value p else buildNumber)
    (pr_Params pipelineRun) "".

(** The canonical name under which the matcher indexes a PipelineActivity. *)
Definition paActivityName (p : PipelineActivity) : string :=
  createPipelineActivityName (pa_Labels p) (Build (pa_Spec p)).

(** The canonical name the matcher computes for a PipelineRun: the build
    label, or the legacy parameter when the label is empty. *)
Definition prActivityName (pr : PipelineRun) : string :=
  let prBuildNumber := label (pr_Labels pr) LabelBuild in
  let prBuildNumber :=
    if String.eqb prBuildNumber "" then findLegacyPipelineRunBuildNumber pr
    else prBuildNumber in
  createPipelineActivityName (pr_Labels pr) prBuildNumber.

(** [fmt.Sprintf("%s %s", paName, pr.Labels["context"])]. *)
Definition nameWithContext (pr : PipelineRun) : string :=
  prActivityName pr +:+ " " +:+ label (pr_Labels pr) "context".

(** The label selector terms of [getPipelineRunNamesForActivity]. *)
Definition activityFilters (pa : PipelineActivity) : list string :=
  ["owner=" +:+ GitOwner (pa_Spec pa);
   "repo=" +:+ GitRepository (pa_Spec pa);
   "branch=" +:+ GitBranch (pa_Spec pa);
   "build=" +:+ Build (pa_Spec pa)].

(** ** Collaborators *)

(** The [LogWriter] interface, over the writer's own state. *)
Class LogWriter (W : Type) : Type := {
  WriteLog : string → W → W * option error;
  StreamLog : string → ptr Pod → Container → W → W * option error
}.

(** The credentials a bucket read is signed with. *)
Record AuthConfigService : Type := { auth_token : string }.

(** What the function bodies call on the jx, Tekton and Kubernetes clients,
    on the common options and on package buckets, over the platform's
    state. A list call answers with a pointer to the list and an error. *)
Record Clients (K : Type) : Type := {
  ListPipelineActivities :
    string → string → K → K * (ptr (list PipelineActivity) * option error);
  ListPipelineRuns :
    string → string → K → K * (ptr (list PipelineRun) * option error);
  GetBuildPods : string → K → K * (list Pod * option error);
  GetPod : string → string → K → K * (ptr Pod * option error);
  Sleep : K → K;
  CreateGitAuthConfigService : K → K * (AuthConfigService * option error);
  CreateBucketHTTPFn : AuthConfigService → string → K → K * (string * option error);
  ReadURL :
    string → Z → (string → K → K * (string * option error)) →
    K → K * (string * option error)
}.
Arguments ListPipelineActivities {K}.
Arguments ListPipelineRuns {K}.
Arguments GetBuildPods {K}.
Arguments GetPod {K}.
Arguments Sleep {K}.
Arguments CreateGitAuthConfigService {K}.
Arguments CreateBucketHTTPFn {K}.
Arguments ReadURL {K}.

(** Pure helpers of packages builds and kube and of the colour library,
    none of them among the sources: they are parameters of the model. *)
Record Helpers : Type := {
  CreateBuildPodInfo : Pod → BuildPodInfo;
  GetContainersWithStatusAndIsInit : Pod → list Container;
  HasContainerStarted : ptr Pod → nat → bool;
  LabelPipelineRunName : string;
  green : string → string
}.

(** The calls the code makes, in order. [EvWarn] is the process log
    ([log.Logger().Warn]); [EvWriteLog] and [EvStreamLog] are the writer.
    In [EvStreamLog] the fields [pass] and [run] are bookkeeping: the pass
    of the loop of [GetRunningBuildLogs] in which the call happens and the
    value of its local variable [pipelineRun]. *)
Inductive Event : Type :=
| EvListPipelineActivities (ns selector : string)
| EvListPipelineRuns (ns selector : string)
| EvGetBuildPods (ns : string)
| EvGetPod (ns name : string)
| EvSleep
| EvWarn (msg : string)
| EvWriteLog (line : string)
| EvStreamLog (pass : nat) (run : string) (ns : string) (pod : ptr Pod) (c : Container)
| EvReadURL (url : string) (timeout : Z).

Inductive outcome (A : Type) : Type :=
| Done (a : A)
| Panicked
| OutOfFuel.
Arguments Done {A}.
Arguments Panicked {A}.
Arguments OutOfFuel {A}.

(** Where a loop body leaves control: at the next iteration, or out of the
    enclosing function with its result. *)
Inductive flow (R A : Type) : Type :=
| Next (a : A)
| Return (r : R).
Arguments Next {R A}.
Arguments Return {R A}.

Record state (K W : Type) : Type := {
  clients : K;
  writer : W;
  trace : list Event
}.
Arguments clients {K W}.
Arguments writer {K W}.
Arguments trace {K W}.

Definition newline : string := String (ascii_of_nat 10) EmptyString.

Section Logs.
Context {K W : Type} (cl : Clients K) `{LW : LogWriter W} (hp : Helpers).

Definition M (A : Type) : Type := state K W → outcome A * state K W.

Definition ret {A} (a : A) : M A := fun st => (Done a, st).

Definition bind {A B} (m : M A) (k : A → M B) : M B :=
  fun st =>
    match m st with
    | (Done a, st') => k a st'
    | (Panicked, st') => (Panicked, st')
    | (OutOfFuel, st') => (OutOfFuel, st')
    end.

Definition panic {A} : M A := fun st => (Panicked, st).
Definition outOfFuel {A} : M A := fun st => (OutOfFuel, st).

Definition emit (ev : Event) (st : state K W) : state K W :=
  {| clients := clients st; writer := writer st; trace := trace st ++ [ev] |}.

Definition callClient {A} (ev : Event) (f : K → K * A) : M A :=
  fun st =>
    let '(k, a) := f (clients st) in
    (Done a, {| clients := k; writer := writer st; trace := trace st ++ [ev] |}).

Definition callWriter {A} (ev : Event) (f : W → W * A) : M A :=
  fun st =>
    let '(w, a) := f (writer st) in
    (Done a, {| clients := clients st; writer := w; trace := trace st ++ [ev] |}).

Definition warn (msg : string) : M unit := fun st => (Done tt, emit (EvWarn msg) st).

Definition deref {A} (p : ptr A) : M A :=
  match p with Some a => ret a | None => panic end.

Notation "'let*' x ':=' m 'in' k" := (bind m (fun x => k))
  (at level 10, x pattern, m at level 100, k at level 200).

(** *** Activity/Run Matcher *)

Definition indexActivities (items : list PipelineActivity)
    : gmap string (ptr PipelineActivity) :=
  fold_left
    (fun paMap p => <[paActivityName p := Some p]> paMap)
    items ∅.

Definition matchRun (acc : list string * gmap string (ptr PipelineActivity))
    (pr : PipelineRun) : list string * gmap string (ptr PipelineActivity) :=
  let '(names, paMap) := acc in
  let paName := prActivityName pr in
  match paMap !! paName with
  | Some _ =>
      (names ++ [nameWithContext pr],
       replacePipelineActivityNameWithEnrichedName paMap paName (nameWithContext pr))
  | None => acc
  end.

Definition createdAfter (a b : PipelineRun) : bool :=
  pr_CreationTimestamp b <? pr_CreationTimestamp a.

Definition GetTektonPipelinesWithActivePipelineActivity (ns : string) (filters : list string)
    : M (list string * gmap string (ptr PipelineActivity) * option error) :=
  let sel := ReplaceFirst (Join filters ",") "repo=" "repository=" in
  let* (paList, err) :=
    callClient (EvListPipelineActivities ns sel) (ListPipelineActivities cl ns sel) in
  match err with
  | Some e =>
      ret ([], ∅, Some (ErrorsWrap e "there was a problem getting the PipelineActivities"))
  | None =>
      let* paItems := deref paList in
      let paMap := indexActivities paItems in
      let* (tektonPRs, _) :=
        callClient (EvListPipelineRuns ns (Join filters ","))
                   (ListPipelineRuns cl ns (Join filters ",")) in
      let* prItems := deref tektonPRs in
      let sorted := sortSlice createdAfter prItems in
      let '(names, paMap) := fold_left matchRun sorted ([], paMap) in
      ret (names, paMap, None)
  end.

(** *** Live Log Streamer and Completion Tracker *)

Definition getPipelineRunNamesForActivity (pa : PipelineActivity)
    : M (list string * option error) :=
  let filters := activityFilters pa in
  let* (tektonPRs, err) :=
    callClient (EvListPipelineRuns (pa_Namespace pa) (Join filters ","))
               (ListPipelineRuns cl (pa_Namespace pa) (Join filters ",")) in
  match err with
  | Some e => ret ([], Some e)
  | None =>
      let* items := deref tektonPRs in
      ret (map pr_Name items, None)
  end.

(** The [for {}] of [waitForContainerToStart]. *)
Fixpoint pollContainer (pollFuel : nat) (ns name : string) (idx : nat)
    : M (ptr Pod * option error) :=
  match pollFuel with
  | O => outOfFuel
  | S pollFuel' =>
      let* _ := callClient EvSleep (fun k => (Sleep cl k, tt)) in
      let* (p, err) := callClient (EvGetPod ns name) (GetPod cl ns name) in
      match err with
      | Some e => ret (p, Some (ErrorsWrap e ("failed to load pod " +:+ name)))
      | None =>
          if HasContainerStarted hp p idx then ret (p, None)
          else pollContainer pollFuel' ns name idx
      end
  end.

Definition waitForContainerToStart (pollFuel : nat) (ns : string) (pod : ptr Pod)
    (idx : nat) : M (ptr Pod * option error) :=
  let* p := deref pod in
  if PodPhase_eqb (pod_Phase p) PodFailed then
    let* _ := warn ("pod " +:+ pod_Name p +:+ " has failed") in
    ret (pod, None)
  else if HasContainerStarted hp pod idx then ret (pod, None)
  else
    let containers := GetContainersWithStatusAndIsInit hp p in
    let containerName :=
      match containers !! idx with Some c => c_Name c | None => "" end in
    let line := "waiting for pod " +:+ green hp (pod_Name p) +:+ " container " +:+
                green hp containerName +:+ " to start..." +:+ newline in
    let* err := callWriter (EvWriteLog line) (WriteLog line) in
    let* _ :=
      match err with
      | Some _ => warn "There was a problem writing a single line into the writeFN"
      | None => ret tt
      end in
    pollContainer pollFuel ns (pod_Name p) idx.

(** The selection predicate of a pod for an activity, without the test
    on the logged set. *)
Definition podMatches (pa : PipelineActivity) (pod : Pod) : bool :=
  let params := CreateBuildPodInfo hp pod in
  String.eqb (Organisation params) (GitOwner (pa_Spec pa)) &&
  String.eqb (Repository params) (GitRepository (pa_Spec pa)) &&
  String.eqb (ToLower (Branch params)) (ToLower (GitBranch (pa_Spec pa))) &&
  String.eqb (bpi_Build params) (Build (pa_Spec pa)).

Definition header (buildName stageName containerName : string) : string :=
  "Showing logs for build " +:+ green hp buildName +:+ " stage " +:+
  green hp stageName +:+ " and container " +:+ green hp containerName +:+ newline.

(** [for i, ic := range containers] of [GetRunningBuildLogs], from index
    [i] on; [pod] is the loop's pod variable, which the body reassigns. *)
Fixpoint streamContainers (pollFuel pass : nat) (pa : PipelineActivity)
    (buildName stageName pipelineRun : string) (pod : ptr Pod) (i : nat)
    (containers : list Container) : M (flow error unit) :=
  match containers with
  | [] => ret (Next tt)
  | ic :: rest =>
      let* (pod, _) := waitForContainerToStart pollFuel (pa_Namespace pa) pod i in
      let line := header buildName stageName (c_Name ic) in
      let* err := callWriter (EvWriteLog line) (WriteLog line) in
      match err with
      | Some e =>
          ret (Return (ErrorsWrap e
                 "there was a problem writing a single line into the logs writer"))
      | None =>
          let* err :=
            callWriter (EvStreamLog pass pipelineRun (pa_Namespace pa) pod ic)
                       (StreamLog (pa_Namespace pa) pod ic) in
          match err with
          | Some e =>
              ret (Return (ErrorsWrap e
                     "there was a problem writing into the stream writer"))
          | None =>
              streamContainers pollFuel pass pa buildName stageName pipelineRun
                               pod (S i) rest
          end
      end
  end.

(** [for _, pod := range pods] of [GetRunningBuildLogs]. *)
Fixpoint streamPods (pollFuel pass : nat) (pa : PipelineActivity) (buildName : string)
    (pipelineRunsLogged : gmap string bool) (pods : list Pod)
    (runsSeenForPods : gmap string bool) (foundLogs : bool)
    : M (flow error (gmap string bool * bool)) :=
  match pods with
  | [] => ret (Next (runsSeenForPods, foundLogs))
  | pod :: rest =>
      let stageName := label (pod_Labels pod) "jenkins.io/task-stage-name" in
      let pipelineRun := label (pod_Labels pod) (LabelPipelineRunName hp) in
      let seen := bool_decide (is_Some (pipelineRunsLogged !! pipelineRun)) in
      if negb seen && podMatches pa pod then
        let runsSeenForPods := <[pipelineRun := true]> runsSeenForPods in
        let containers := GetContainersWithStatusAndIsInit hp pod in
        let* r := streamContainers pollFuel pass pa buildName stageName pipelineRun
                                   (Some pod) 0 containers in
        match r with
        | Return e => ret (Return e)
        | Next _ =>
            streamPods pollFuel pass pa buildName pipelineRunsLogged rest
                       runsSeenForPods true
        end
      else
        streamPods pollFuel pass pa buildName pipelineRunsLogged rest
                   runsSeenForPods foundLogs
  end.

Definition createdBefore (a b : Pod) : bool :=
  pod_CreationTimestamp a <? pod_CreationTimestamp b.

Definition namesError (pa : PipelineActivity) (e : error) : error :=
  ErrorsWrap e ("failed to get PipelineRun names for activity " +:+ pa_Name pa +:+
                " in namespace " +:+ pa_Namespace pa).

(** One pass of the loop of [GetRunningBuildLogs]: the new values of
    [pipelineRunNames], [pipelineRunsLogged] and [foundLogs]. *)
Definition loopPass (pollFuel pass : nat) (pa : PipelineActivity) (buildName : string)
    (pipelineRunsLogged : gmap string bool) (foundLogs : bool)
    : M (flow error (list string * gmap string bool * bool)) :=
  let* (pods, err) :=
    callClient (EvGetBuildPods (pa_Namespace pa)) (GetBuildPods cl (pa_Namespace pa)) in
  match err with
  | Some e =>
      ret (Return (ErrorsWrap e
             ("failed to get build pods in namespace " +:+ pa_Namespace pa)))
  | None =>
      let pods := sortSlice createdBefore pods in
      let* r := streamPods pollFuel pass pa buildName pipelineRunsLogged pods ∅ foundLogs in
      match r with
      | Return e => ret (Return e)
      | Next (runsSeenForPods, foundLogs) =>
          let* (pipelineRunNames, err) := getPipelineRunNamesForActivity pa in
          match err with
          | Some e => ret (Return (namesError pa e))
          | None =>
              ret (Next (pipelineRunNames, runsSeenForPods ∪ pipelineRunsLogged, foundLogs))
          end
      end
  end.

Definition garbageCollected : error :=
  ErrorsNew "the build pods for this build have been garbage collected and the log was not found in the long term storage bucket".

(** [for len(pipelineRunNames) > len(pipelineRunsLogged)] and what follows
    it; [pass] counts the passes made so far. *)
Fixpoint trackRuns (fuel pollFuel pass : nat) (pa : PipelineActivity) (buildName : string)
    (pipelineRunNames : list string) (pipelineRunsLogged : gmap string bool)
    (foundLogs : bool) : M (option error) :=
  if (size pipelineRunsLogged <? length pipelineRunNames)%nat then
    match fuel with
    | O => outOfFuel
    | S fuel' =>
        let* r := loopPass pollFuel pass pa buildName pipelineRunsLogged foundLogs in
        match r with
        | Return e => ret (Some e)
        | Next (names, logged, found) =>
            trackRuns fuel' pollFuel (S pass) pa buildName names logged found
        end
    end
  else if negb foundLogs then ret (Some garbageCollected)
  else ret None.

Definition GetRunningBuildLogs (fuel pollFuel : nat) (pa : PipelineActivity)
    (buildName : string) : M (option error) :=
  let* (pipelineRunNames, err) := getPipelineRunNamesForActivity pa in
  match err with
  | Some e => ret (Some (namesError pa e))
  | None => trackRuns fuel pollFuel 0 pa buildName pipelineRunNames ∅ false
  end.

(** *** Persisted Log Fetcher *)

Definition createBucketHTTPFn (urlString : string) (k : K) : K * (string * option error) :=
  let '(k, (authSvc, err)) := CreateGitAuthConfigService cl k in
  match err with
  | Some e => (k, ("", Some e))
  | None => CreateBucketHTTPFn cl authSvc urlString k
  end.

Definition StreamPipelinePersistentLogs (logsURL : string) : M (option error) :=
  let httpFn := createBucketHTTPFn in
  let* (data, err) :=
    callClient (EvReadURL logsURL 20) (ReadURL cl logsURL 20 httpFn) in
  match err with
  | Some e => ret (Some e)
  | None => callWriter (EvWriteLog data) (WriteLog data)
  end.
End Logs.

Arguments M K W A : clear implicits.

(** ** Example collaborators

    A scripted platform: its state is the number of calls answered so far,
    and each answer is read from a table at that index. *)
Record Script : Type := {
  activitiesAt : nat → ptr (list PipelineActivity) * option error;
  runsAt : nat → ptr (list PipelineRun) * option error;
  podsAt : nat → list Pod * option error;
  podAt : nat → string → ptr Pod * option error;
  readAt : nat → string → string * option error
}.

Definition scripted (sc : Script) : Clients nat := {|
  ListPipelineActivities _ _ k := (S k, activitiesAt sc k);
  ListPipelineRuns _ _ k := (S k, runsAt sc k);
  GetBuildPods _ k := (S k, podsAt sc k);
  GetPod _ name k := (S k, podAt sc k name);
  Sleep k := k;
  CreateGitAuthConfigService k := (k, ({| auth_token := "" |}, None));
  CreateBucketHTTPFn _ url k := (k, (url, None));
  ReadURL url _ httpFn k :=
    let '(k, (url', err)) := httpFn url k in
    match err with
    | Some e => (S k, ("", Some e))
    | None => (S k, readAt sc k url')
    end
|}.

(** A writer that never fails and counts its calls. *)
Definition countingWriter : LogWriter nat := {|
  WriteLog _ w := (S w, None);
  StreamLog _ _ _ w := (S w, None)
|}.

(** Helpers that read the pod info from the labels, take the containers as
    declared and hold a container started when its status is running or
    terminated; colouring is left out. *)
Definition labelHelpers : Helpers := {|
  CreateBuildPodInfo pod :=
    {| Organisation := label (pod_Labels pod) "owner";
       Repository := label (pod_Labels pod) "repository";
       Branch := label (pod_Labels pod) "branch";
       bpi_Build := label (pod_Labels pod) "build" |};
  GetContainersWithStatusAndIsInit pod := pod_Containers pod;
  HasContainerStarted p idx :=
    match p with
    | None => false
    | Some pod =>
        match pod_Statuses pod !! idx with
        | Some Running | Some Terminated => true
        | _ => false
        end
    end;
  LabelPipelineRunName := "tekton.dev/pipelineRun";
  green s := s
|}.

Definition start : state nat nat := {| clients := 0%nat; writer := 0%nat; trace := [] |}.

Definition acmeLabels (build context : string) : gmap string string :=
  <["owner" := "acme"]> (<["repo" := "widgets"]> (<["branch" := "master"]>
    (<["build" := build]> (<["context" := context]> ∅)))).

Definition acmeActivity : PipelineActivity := {|
  pa_Name := "acme-widgets-master-7";
  pa_Namespace := "jx";
  pa_Labels := <["owner" := "acme"]> (<["repository" := "widgets"]>
                 (<["branch" := "master"]> ∅));
  pa_Spec := {| GitOwner := "acme"; GitRepository := "widgets";
                GitBranch := "master"; Build := "7" |}
|}.

Definition acmeRun (name context : string) (created : Z) : PipelineRun := {|
  pr_Name := name;
  pr_Labels := acmeLabels "7" context;
  pr_CreationTimestamp := created;
  pr_Params := []
|}.

(** ** Properties of the Name Correlator *)

(** Membership in a list written out. *)
Ltac in_list :=
  repeat first [apply list_elem_of_here | apply list_elem_of_further].

Definition legacyStep (buildNumber : string) (p : Param) : string :=
  if String.eqb (param_Name p) "build_id" then param_Value p else buildNumber.

Lemma findLegacy_fold (params : list Param) (acc : string) :
  (fold_left legacyStep params acc = acc ∧ ∀ p, p ∈ params → param_Name p ≠ "build_id")
  ∨ (∃ p, p ∈ params ∧ param_Name p = "build_id"
          ∧ fold_left legacyStep params acc = param_Value p).
Proof.
  revert acc. induction params as [|q params IH]; intros acc; simpl.
  - left. split; [done|]. intros p Hp. by apply elem_of_nil in Hp.
  - destruct (IH (legacyStep acc q)) as [[Heq Hno]|(p & Hp & Hn & Heq)].
    + rewrite Heq. unfold legacyStep.
      destruct (String.eqb (param_Name q) "build_id") eqn:E.
      * right. exists q. apply String.eqb_eq in E.
        split; [apply list_elem_of_here|]. done.
      * left. split; [done|]. intros p [->|Hp]%elem_of_cons; [|by apply Hno].
        by apply String.eqb_neq in E.
    + right. exists p. split; [by apply list_elem_of_further|]. done.
Qed.

Lemma findLegacy_unique (pr : PipelineRun) (v : string) :
  (∃ p, p ∈ pr_Params pr ∧ param_Name p = "build_id") →
  (∀ p, p ∈ pr_Params pr → param_Name p = "build_id" → param_Value p = v) →
  findLegacyPipelineRunBuildNumber pr = v.
Proof.
  intros (p0 & Hp0 & Hn0) Hall. unfold findLegacyPipelineRunBuildNumber.
  change (fold_left legacyStep (pr_Params pr) "" = v).
  destruct (findLegacy_fold (pr_Params pr) "") as [[_ Hno]|(p & Hp & Hn & ->)].
  - by destruct (Hno p0 Hp0).
  - by apply Hall.
Qed.

(** C8. A run whose build label is empty and whose [build_id] parameter is
    [v] (here any non-empty value, "42" in particular) gets the canonical
    name of a run that carries the build label [v] and the same owner,
    repository and branch labels; so both look up the same entry of any
    index, and the matcher does the same with either when their context
    labels agree. *)
Theorem legacy_build_number_recovery (legacy modern : PipelineRun) (v : string) :
  v ≠ "" →
  label (pr_Labels legacy) LabelBuild = "" →
  (∃ p, p ∈ pr_Params legacy ∧ param_Name p = "build_id") →
  (∀ p, p ∈ pr_Params legacy → param_Name p = "build_id" → param_Value p = v) →
  label (pr_Labels modern) LabelBuild = v →
  (∀ k, k ∈ [LabelOwner; LabelRepository; "repo"; LabelBranch] →
        label (pr_Labels legacy) k = label (pr_Labels modern) k) →
  prActivityName legacy = prActivityName modern
  ∧ (∀ paMap : gmap string (ptr PipelineActivity),
       paMap !! prActivityName legacy = paMap !! prActivityName modern)
  ∧ (label (pr_Labels legacy) "context" = label (pr_Labels modern) "context" →
     ∀ acc, matchRun acc legacy = matchRun acc modern).
Proof.
  intros Hv Hl Hex Hall Hm Hk.
  assert (Hname : prActivityName legacy = prActivityName modern).
  { unfold prActivityName. rewrite Hl, Hm. simpl.
    rewrite (findLegacy_unique legacy v Hex Hall).
    destruct (String.eqb v "") eqn:E; [by apply String.eqb_eq in E|].
    unfold createPipelineActivityName.
    rewrite !(Hk LabelOwner), !(Hk LabelRepository), !(Hk "repo"), !(Hk LabelBranch);
      [done|in_list..]. }
  split; [done|]. split; [by rewrite Hname|].
  intros Hc [names paMap]. unfold matchRun, nameWithContext. by rewrite Hname, Hc.
Qed.

Definition legacyRun42 : PipelineRun := {|
  pr_Name := "legacy";
  pr_Labels := <["owner" := "acme"]> (<["repo" := "widgets"]> (<["branch" := "master"]> ∅));
  pr_CreationTimestamp := 10;
  pr_Params := [{| param_Name := "version"; param_Value := "1.0" |};
                {| param_Name := "build_id"; param_Value := "42" |}]
|}.

Definition modernRun42 : PipelineRun := {|
  pr_Name := "modern";
  pr_Labels := acmeLabels "42" "";
  pr_CreationTimestamp := 20;
  pr_Params := []
|}.

Lemma legacy_build_number_recovery_witness :
  prActivityName legacyRun42 = "acme/widgets/master #42"
  ∧ prActivityName legacyRun42 = prActivityName modernRun42.
Proof.
  split; [reflexivity|].
  apply (legacy_build_number_recovery legacyRun42 modernRun42 "42").
  - discriminate.
  - reflexivity.
  - exists {| param_Name := "build_id"; param_Value := "42" |}. split; [|reflexivity].
    simpl. in_list.
  - intros p Hp Hn. simpl in Hp.
    apply elem_of_cons in Hp as [->|Hp]; [discriminate|].
    apply elem_of_cons in Hp as [->|Hp]; [reflexivity|]. by apply elem_of_nil in Hp.
  - reflexivity.
  - intros k Hk. repeat (apply elem_of_cons in Hk as [->|Hk]; [reflexivity|]).
    by apply elem_of_nil in Hk.
Defined.

(** ** Properties of [sort.Slice] *)

Lemma sort_insert_perm {A} (less : A → A → bool) (x : A) (l : list A) :
  sort_insert less x l ≡ₚ x :: l.
Proof.
  induction l as [|y l IH]; simpl; [done|].
  destruct (less y x); [|done]. rewrite IH. apply Permutation_swap.
Qed.

Lemma sortSlice_perm {A} (less : A → A → bool) (l : list A) : sortSlice less l ≡ₚ l.
Proof.
  induction l as [|x l IH]; simpl; [done|]. by rewrite sort_insert_perm, IH.
Qed.

Lemma sortSlice_elem_of {A} (less : A → A → bool) (l : list A) (x : A) :
  x ∈ sortSlice less l ↔ x ∈ l.
Proof. by rewrite sortSlice_perm. Qed.

Definition notOlder (a b : PipelineRun) : Prop :=
  pr_CreationTimestamp b ≤ pr_CreationTimestamp a.

Lemma sort_insert_createdAfter (x : PipelineRun) (l : list PipelineRun) :
  StronglySorted notOlder l → StronglySorted notOlder (sort_insert createdAfter x l).
Proof.
  induction 1 as [|y l Hl IH Hy]; simpl.
  - repeat constructor.
  - unfold createdAfter at 1. destruct (Z.ltb_spec (pr_CreationTimestamp x) (pr_CreationTimestamp y)).
    + constructor; [done|].
      apply Forall_forall. intros z Hz.
      apply (elem_of_Permutation_proper _ _ _ (sort_insert_perm createdAfter x l)) in Hz.
      apply elem_of_cons in Hz as [->|Hz]; [unfold notOlder; lia|].
      by eapply Forall_forall in Hy.
    + constructor; [by constructor|].
      constructor; [done|].
      eapply Forall_impl; [exact Hy|]. unfold notOlder. intros z Hz. lia.
Qed.

Lemma sortSlice_createdAfter_sorted (l : list PipelineRun) :
  StronglySorted notOlder (sortSlice createdAfter l).
Proof.
  induction l as [|x l IH]; simpl; [constructor|]. by apply sort_insert_createdAfter.
Qed.

Lemma StronglySorted_sublist {A} (R : A → A → Prop) (l k : list A) :
  l `sublist_of` k → StronglySorted R k → StronglySorted R l.
Proof.
  induction 1 as [|x l k Hs IH|x l k Hs IH]; intros Hk; [done|..].
  - apply StronglySorted_inv in Hk as [Hk Hx].
    constructor; [by apply IH|].
    apply Forall_forall. intros y Hy. eapply Forall_forall in Hx; [done|].
    by eapply elem_of_sublist.
  - apply StronglySorted_inv in Hk as [Hk _]. by apply IH.
Qed.

(** ** Properties of the Activity/Run Matcher *)

Lemma matchRuns_names (l : list PipelineRun) (names : list string)
    (paMap : gmap string (ptr PipelineActivity)) :
  ∃ rs, rs `sublist_of` l
        ∧ (fold_left matchRun l (names, paMap)).1 = names ++ map nameWithContext rs.
Proof.
  revert names paMap. induction l as [|r l IH]; intros names paMap; simpl.
  - exists []. split; [constructor|]. by rewrite app_nil_r.
  - destruct (paMap !! prActivityName r).
    + destruct (IH (names ++ [nameWithContext r])
                   (replacePipelineActivityNameWithEnrichedName paMap (prActivityName r)
                      (nameWithContext r))) as (rs & Hs & ->).
      exists (r :: rs). split; [by constructor|]. by rewrite <- app_assoc.
    + destruct (IH names paMap) as (rs & Hs & ->).
      exists rs. split; [by constructor|]. done.
Qed.

(** What [GetTektonPipelinesWithActivePipelineActivity] returns when both
    lists are answered. *)
Lemma GetTekton_returns {K W} (cl : Clients K) (ns : string) (filters : list string)
    (st : state K W) k1 paItems k2 prItems e :
  ListPipelineActivities cl ns (ReplaceFirst (Join filters ",") "repo=" "repository=")
    (clients st) = (k1, (Some paItems, None)) →
  ListPipelineRuns cl ns (Join filters ",") k1 = (k2, (Some prItems, e)) →
  ∃ st',
    GetTektonPipelinesWithActivePipelineActivity cl ns filters st
    = (Done ((fold_left matchRun (sortSlice createdAfter prItems)
                ([], indexActivities paItems)).1,
             (fold_left matchRun (sortSlice createdAfter prItems)
                ([], indexActivities paItems)).2, None), st').
Proof.
  intros Hpa Hpr.
  unfold GetTektonPipelinesWithActivePipelineActivity, bind, callClient.
  rewrite Hpa. simpl. rewrite Hpr. simpl.
  destruct (fold_left matchRun _ _) as [names paMap]. simpl. eauto.
Qed.

(** C9. When both lists are answered, the names returned are the enriched
    names of runs of the PipelineRun list, in an order in which no run is
    older than a run before it: creation timestamp descending, most recent
    first. *)
Theorem names_ordered_most_recent_first {K W} (cl : Clients K) (ns : string)
    (filters : list string) (st : state K W) k1 paItems k2 prItems e :
  ListPipelineActivities cl ns (ReplaceFirst (Join filters ",") "repo=" "repository=")
    (clients st) = (k1, (Some paItems, None)) →
  ListPipelineRuns cl ns (Join filters ",") k1 = (k2, (Some prItems, e)) →
  ∃ names paMap st' rs sorted,
    GetTektonPipelinesWithActivePipelineActivity cl ns filters st
    = (Done (names, paMap, None), st')
    ∧ names = map nameWithContext rs
    ∧ rs `sublist_of` sorted ∧ sorted ≡ₚ prItems
    ∧ StronglySorted notOlder rs.
Proof.
  intros Hpa Hpr.
  destruct (GetTekton_returns cl ns filters st _ _ _ _ _ Hpa Hpr) as [st' Hrun].
  destruct (matchRuns_names (sortSlice createdAfter prItems) [] (indexActivities paItems))
    as (rs & Hs & Hn).
  eexists _, _, st', rs, (sortSlice createdAfter prItems).
  split; [exact Hrun|]. split; [exact Hn|]. split; [done|].
  split; [apply sortSlice_perm|].
  eapply StronglySorted_sublist; [done|]. apply sortSlice_createdAfter_sorted.
Qed.

Definition acmeActivity8 : PipelineActivity := {|
  pa_Name := "acme-widgets-master-8";
  pa_Namespace := "jx";
  pa_Labels := pa_Labels acmeActivity;
  pa_Spec := {| GitOwner := "acme"; GitRepository := "widgets";
                GitBranch := "master"; Build := "8" |}
|}.

Definition twoBuilds : Script := {|
  activitiesAt _ := (Some [acmeActivity; acmeActivity8], None);
  runsAt _ :=
    (Some [acmeRun "run-7" "ci" 100;
           {| pr_Name := "run-8"; pr_Labels := acmeLabels "8" "ci";
              pr_CreationTimestamp := 200; pr_Params := [] |}], None);
  podsAt _ := ([], None);
  podAt _ _ := (None, None);
  readAt _ _ := ("", None)
|}.

Lemma names_ordered_most_recent_first_witness :
  (GetTektonPipelinesWithActivePipelineActivity (W := nat) (scripted twoBuilds) "jx" [] start).1
  = Done (["acme/widgets/master #8 ci"; "acme/widgets/master #7 ci"],
          list_to_map [("acme/widgets/master #8 ci", Some acmeActivity8);
                       ("acme/widgets/master #7 ci", Some acmeActivity)], None)
  ∧ ∃ names paMap st' rs sorted,
      GetTektonPipelinesWithActivePipelineActivity (W := nat) (scripted twoBuilds) "jx" [] start
      = (Done (names, paMap, None), st')
      ∧ names = map nameWithContext rs
      ∧ rs `sublist_of` sorted ∧ sorted ≡ₚ default [] (runsAt twoBuilds 1).1
      ∧ StronglySorted notOlder rs.
Proof.
  split; [reflexivity|].
  eapply (names_ordered_most_recent_first (scripted twoBuilds) "jx" [] start); reflexivity.
Defined.

Lemma append_eq_self (s t : string) : s +:+ t = s → t = "".
Proof.
  induction s as [|a s IH]; simpl; [done|]. intros [= H]. by apply IH.
Qed.

Lemma nameWithContext_ne (r : PipelineRun) : nameWithContext r ≠ prActivityName r.
Proof.
  unfold nameWithContext. intros H. by apply append_eq_self in H.
Qed.

(** Once the plain name is gone from the index, runs with that name are
    passed over. *)
Lemma matchRuns_absent (l : list PipelineRun) (key : string) (names : list string)
    (paMap : gmap string (ptr PipelineActivity)) :
  (∀ r, r ∈ l → prActivityName r = key) →
  paMap !! key = None →
  fold_left matchRun l (names, paMap) = (names, paMap).
Proof.
  induction l as [|r l IH]; intros Hall Hnone; [done|].
  change (fold_left matchRun (r :: l) (names, paMap))
    with (fold_left matchRun l (matchRun (names, paMap) r)).
  unfold matchRun at 2. rewrite (Hall r) by in_list. rewrite Hnone.
  apply IH; [|done]. intros r' Hr'. apply Hall. by apply list_elem_of_further.
Qed.

Lemma matchRuns_same_key (r : PipelineRun) (l : list PipelineRun) (v : ptr PipelineActivity)
    (paMap : gmap string (ptr PipelineActivity)) :
  (∀ r', r' ∈ l → prActivityName r' = prActivityName r) →
  paMap !! prActivityName r = Some v →
  fold_left matchRun (r :: l) ([], paMap)
  = ([nameWithContext r],
     delete (prActivityName r) (<[nameWithContext r := v]> paMap)).
Proof.
  intros Hall Hv.
  change (fold_left matchRun (r :: l) ([], paMap))
    with (fold_left matchRun l (matchRun ([], paMap) r)).
  unfold matchRun at 2. rewrite Hv.
  unfold replacePipelineActivityNameWithEnrichedName. rewrite Hv.
  change (default None (Some v)) with v. change ([] ++ [nameWithContext r]) with [nameWithContext r].
  apply (matchRuns_absent l (prActivityName r)); [done|]. apply lookup_delete_eq.
Qed.

Definition indexStep (paMap : gmap string (ptr PipelineActivity)) (p : PipelineActivity)
    : gmap string (ptr PipelineActivity) :=
  <[paActivityName p := Some p]> paMap.

Lemma indexActivities_fold (items : list PipelineActivity)
    (m : gmap string (ptr PipelineActivity)) (key : string) :
  (fold_left indexStep items m !! key = m !! key
   ∧ ∀ p, p ∈ items → paActivityName p ≠ key)
  ∨ (∃ p, p ∈ items ∧ paActivityName p = key
          ∧ fold_left indexStep items m !! key = Some (Some p)).
Proof.
  revert m. induction items as [|q items IH]; intros m; cbn [fold_left].
  - left. split; [done|]. intros p Hp. by apply elem_of_nil in Hp.
  - destruct (IH (indexStep m q)) as [[Heq Hno]|(p & Hp & Hn & Heq)].
    + destruct (decide (paActivityName q = key)) as [E|E].
      * right. exists q. split; [apply list_elem_of_here|]. split; [done|].
        rewrite Heq. unfold indexStep. rewrite E. apply lookup_insert_eq.
      * left. split.
        -- rewrite Heq. unfold indexStep. by apply lookup_insert_ne.
        -- intros p [->|Hp]%elem_of_cons; [done|by apply Hno].
    + right. exists p. split; [by apply list_elem_of_further|]. done.
Qed.

(** A record of the list is found in the index under its canonical name:
    the last record of the list with that name. *)
Lemma indexActivities_lookup (items : list PipelineActivity) (p : PipelineActivity) :
  p ∈ items →
  ∃ p', p' ∈ items ∧ paActivityName p' = paActivityName p
        ∧ indexActivities items !! paActivityName p = Some (Some p').
Proof.
  intros Hp. change (indexActivities items) with (fold_left indexStep items ∅).
  destruct (indexActivities_fold items ∅ (paActivityName p))
    as [[_ Hno]|(p' & Hp' & Hn & Heq)].
  - by destruct (Hno p Hp).
  - by exists p'.
Qed.

(** C3, as the code has it. Two runs with the same canonical name, for
    which a record exists, yield one name, not two: the enriched name of
    the run that sorts first (none is more recent). It maps to a record
    with that canonical name in the returned map, the plain name is
    removed from the map, and so the other run finds no record and is
    passed over. *)
Theorem same_key_runs_yield_one_name {K W} (cl : Clients K) (ns : string)
    (filters : list string) (st : state K W) k1 paItems k2 e
    (r1 r2 : PipelineRun) (p : PipelineActivity) :
  ListPipelineActivities cl ns (ReplaceFirst (Join filters ",") "repo=" "repository=")
    (clients st) = (k1, (Some paItems, None)) →
  ListPipelineRuns cl ns (Join filters ",") k1 = (k2, (Some [r1; r2], e)) →
  prActivityName r1 = prActivityName r2 →
  p ∈ paItems →
  paActivityName p = prActivityName r1 →
  ∃ names paMap st' r p',
    GetTektonPipelinesWithActivePipelineActivity cl ns filters st
    = (Done (names, paMap, None), st')
    ∧ (r = r1 ∨ r = r2) ∧ notOlder r r1 ∧ notOlder r r2
    ∧ names = [nameWithContext r]
    ∧ paMap !! nameWithContext r = Some (Some p')
    ∧ p' ∈ paItems ∧ paActivityName p' = prActivityName r1
    ∧ paMap !! prActivityName r1 = None.
Proof.
  intros Hpa Hpr Hkey Hp Hname.
  destruct (GetTekton_returns cl ns filters st _ _ _ _ _ Hpa Hpr) as [st' Hrun].
  destruct (indexActivities_lookup paItems p Hp) as (p' & Hp' & Hn' & Hidx).
  rewrite Hname in Hidx, Hn'.
  assert (Hsort : ∃ r r', sortSlice createdAfter [r1; r2] = [r; r']
                          ∧ (r = r1 ∨ r = r2) ∧ (r' = r1 ∨ r' = r2)
                          ∧ notOlder r r1 ∧ notOlder r r2).
  { simpl. unfold createdAfter, notOlder.
    destruct (Z.ltb_spec (pr_CreationTimestamp r1) (pr_CreationTimestamp r2)).
    - exists r2, r1. repeat split; auto; lia.
    - exists r1, r2. repeat split; auto; lia. }
  destruct Hsort as (r & r' & Hs & Hr & Hr' & Hn1 & Hn2).
  assert (Hk : prActivityName r = prActivityName r1) by (by destruct Hr as [->| ->]).
  assert (Hk' : prActivityName r' = prActivityName r) by (by destruct Hr' as [->| ->]; rewrite Hk).
  rewrite Hs in Hrun.
  rewrite (matchRuns_same_key r [r'] (Some p')) in Hrun; cycle 1.
  { intros x [->|Hx]%elem_of_cons; [done|]. by apply elem_of_nil in Hx. }
  { by rewrite Hk. }
  simpl in Hrun.
  eexists _, _, st', r, p'. split; [exact Hrun|].
  repeat split; try done.
  - rewrite lookup_delete_ne by (apply not_eq_sym, nameWithContext_ne).
    apply lookup_insert_eq.
  - rewrite <- Hk. apply lookup_delete_eq.
Qed.

Definition twoContexts : Script := {|
  activitiesAt _ := (Some [acmeActivity], None);
  runsAt _ :=
    (Some [acmeRun "run-a" "integration" 100; acmeRun "run-b" "pr-build" 200], None);
  podsAt _ := ([], None);
  podAt _ _ := (None, None);
  readAt _ _ := ("", None)
|}.

Lemma same_key_runs_yield_one_name_witness :
  ∃ names paMap st' r p',
    GetTektonPipelinesWithActivePipelineActivity (W := nat) (scripted twoContexts) "jx" [] start
    = (Done (names, paMap, None), st')
    ∧ (r = acmeRun "run-a" "integration" 100 ∨ r = acmeRun "run-b" "pr-build" 200)
    ∧ notOlder r (acmeRun "run-a" "integration" 100)
    ∧ notOlder r (acmeRun "run-b" "pr-build" 200)
    ∧ names = [nameWithContext r]
    ∧ paMap !! nameWithContext r = Some (Some p')
    ∧ p' ∈ [acmeActivity]
    ∧ paActivityName p' = prActivityName (acmeRun "run-a" "integration" 100)
    ∧ paMap !! prActivityName (acmeRun "run-a" "integration" 100) = None.
Proof.
  eapply (same_key_runs_yield_one_name (scripted twoContexts) "jx" [] start
            _ [acmeActivity] _ _ _ _ acmeActivity);
    [reflexivity | reflexivity | reflexivity | in_list | reflexivity].
Defined.

(** C3 fails as stated: two runs of build 7 of acme/widgets/master with the
    contexts "integration" and "pr-build", and a record for that build; one
    name comes back, and the other enriched name is not in the map. *)
Lemma disambiguation_counterexample :
  prActivityName (acmeRun "run-a" "integration" 100)
  = prActivityName (acmeRun "run-b" "pr-build" 200)
  ∧ label (pr_Labels (acmeRun "run-a" "integration" 100)) "context"
    ≠ label (pr_Labels (acmeRun "run-b" "pr-build" 200)) "context"
  ∧ paActivityName acmeActivity = prActivityName (acmeRun "run-a" "integration" 100)
  ∧ match (GetTektonPipelinesWithActivePipelineActivity (W := nat)
             (scripted twoContexts) "jx" [] start).1 with
    | Done (names, paMap, err) =>
        names = ["acme/widgets/master #7 pr-build"]
        ∧ paMap !! "acme/widgets/master #7 integration" = None
        ∧ err = None
    | _ => False
    end.
Proof.
  split; [reflexivity|]. split; [discriminate|]. split; [reflexivity|].
  vm_compute. done.
Qed.

(** ** Reasoning about traces

    [spec P Q m]: whatever the outcome of [m], the trace has only grown, by
    events that satisfy [P]; and a result, when there is one, satisfies
    [Q]. *)
Section Spec.
Context {K W : Type}.

Definition appends (P : Event → Prop) (st st' : state K W) : Prop :=
  ∃ new, trace st' = trace st ++ new ∧ Forall P new.

Definition spec {A} (P : Event → Prop) (Q : A → Prop) (m : M K W A) : Prop :=
  ∀ st o st', m st = (o, st') → appends P st st' ∧ ∀ a, o = Done a → Q a.

Lemma appends_refl P st : appends P st st.
Proof. exists []. by rewrite app_nil_r. Qed.

Lemma appends_trans P st1 st2 st3 :
  appends P st1 st2 → appends P st2 st3 → appends P st1 st3.
Proof.
  intros (n1 & H1 & F1) (n2 & H2 & F2). exists (n1 ++ n2).
  split; [by rewrite H2, H1, app_assoc|]. by apply Forall_app.
Qed.

Lemma spec_ret {A} P (Q : A → Prop) (a : A) : Q a → spec P Q (ret a).
Proof.
  intros HQ st o st' [= <- <-]. split; [apply appends_refl|]. by intros ? [= <-].
Qed.

Lemma spec_panic {A} P (Q : A → Prop) : spec P Q panic.
Proof. intros st o st' [= <- <-]. split; [apply appends_refl|done]. Qed.

Lemma spec_outOfFuel {A} P (Q : A → Prop) : spec P Q outOfFuel.
Proof. intros st o st' [= <- <-]. split; [apply appends_refl|done]. Qed.

Lemma spec_bind {A B} P (Q : A → Prop) (R : B → Prop) (m : M K W A) (k : A → M K W B) :
  spec P Q m → (∀ a, Q a → spec P R (k a)) → spec P R (bind m k).
Proof.
  intros Hm Hk st o st' Hrun. unfold bind in Hrun.
  destruct (m st) as [[a| |] st1] eqn:E; destruct (Hm _ _ _ E) as [Happ HQ].
  - destruct (Hk a (HQ a eq_refl) _ _ _ Hrun) as [Happ' HR].
    split; [by eapply appends_trans|done].
  - injection Hrun as <- <-. done.
  - injection Hrun as <- <-. done.
Qed.

Lemma spec_weaken {A} (P P' : Event → Prop) (Q Q' : A → Prop) (m : M K W A) :
  (∀ e, P e → P' e) → (∀ a, Q a → Q' a) → spec P Q m → spec P' Q' m.
Proof.
  intros HP HQ Hm st o st' Hrun. destruct (Hm _ _ _ Hrun) as [(new & Ht & HF) Ha].
  split; [|by auto]. exists new. split; [done|]. by eapply Forall_impl.
Qed.

Lemma spec_callClient {A} P (ev : Event) (f : K → K * A) :
  P ev → spec P (fun _ => True) (callClient ev f).
Proof.
  intros HP st o st' Hrun. unfold callClient in Hrun.
  destruct (f (clients st)) as [k a]. injection Hrun as <- <-.
  split; [|done]. exists [ev]. split; [done|]. by constructor.
Qed.

Lemma spec_callWriter {A} P (ev : Event) (f : W → W * A) :
  P ev → spec P (fun _ => True) (callWriter ev f).
Proof.
  intros HP st o st' Hrun. unfold callWriter in Hrun.
  destruct (f (writer st)) as [w a]. injection Hrun as <- <-.
  split; [|done]. exists [ev]. split; [done|]. by constructor.
Qed.

Lemma spec_warn P (msg : string) : P (EvWarn msg) → spec P (fun _ => True) (warn msg).
Proof.
  intros HP st o st' [= <- <-]. split; [|done].
  exists [EvWarn msg]. split; [done|]. by constructor.
Qed.

Lemma spec_deref {A} P (p : ptr A) : spec P (fun _ => True) (deref p).
Proof. destruct p; [by apply spec_ret|apply spec_panic]. Qed.
End Spec.

(** An event that is no call of [StreamLog]. *)
Definition notStream (e : Event) : Prop :=
  match e with EvStreamLog _ _ _ _ _ => False | _ => True end.

(** Every call of [StreamLog] among the events satisfies [Q] on its pass
    and run name. *)
Definition streams (Q : nat → string → Prop) (e : Event) : Prop :=
  match e with EvStreamLog pass run _ _ _ => Q pass run | _ => True end.

Lemma notStream_streams Q e : notStream e → streams Q e.
Proof. by destruct e. Qed.

Lemma streams_impl (Q Q' : nat → string → Prop) e :
  (∀ p r, Q p r → Q' p r) → streams Q e → streams Q' e.
Proof. intros H. destruct e; simpl; auto. Qed.

Section StreamerSpecs.
Context {K W : Type} (cl : Clients K) `{LW : LogWriter W} (hp : Helpers).

Lemma pollContainer_spec pollFuel ns name idx :
  spec notStream (fun _ => True) (pollContainer cl hp (W := W) pollFuel ns name idx).
Proof.
  induction pollFuel as [|n IH]; simpl; [apply spec_outOfFuel|].
  eapply spec_bind; [by apply spec_callClient|]. intros _ _.
  eapply spec_bind; [by apply spec_callClient|]. intros [p [e|]] _.
  - by apply spec_ret.
  - destruct (HasContainerStarted hp p idx); [by apply spec_ret|apply IH].
Qed.

Lemma waitForContainerToStart_spec pollFuel ns pod idx :
  spec notStream (fun _ => True) (waitForContainerToStart cl hp pollFuel ns pod idx).
Proof.
  unfold waitForContainerToStart.
  eapply spec_bind; [apply spec_deref|]. intros p _.
  destruct (PodPhase_eqb (pod_Phase p) PodFailed).
  { eapply spec_bind; [by apply spec_warn|]. intros _ _. by apply spec_ret. }
  destruct (HasContainerStarted hp pod idx); [by apply spec_ret|].
  eapply spec_bind; [by apply spec_callWriter|]. intros err _.
  eapply spec_bind with (Q := fun _ => True).
  { destruct err; [by apply spec_warn|by apply spec_ret]. }
  intros _ _. apply pollContainer_spec.
Qed.

(** The calls of [StreamLog] made for a pod carry the pass and the run
    name of that pod. *)
Lemma streamContainers_spec pollFuel pass pa buildName stageName pipelineRun pod i cs :
  spec (streams (fun p r => p = pass ∧ r = pipelineRun)) (fun _ => True)
    (streamContainers cl hp pollFuel pass pa buildName stageName pipelineRun pod i cs).
Proof.
  revert pod i. induction cs as [|ic cs IH]; intros pod i; simpl.
  { by apply spec_ret. }
  eapply spec_bind with (Q := fun _ => True).
  { eapply spec_weaken; [apply notStream_streams|done|].
    apply waitForContainerToStart_spec. }
  intros [pod' _err] _.
  eapply spec_bind; [by apply spec_callWriter|]. intros [e|] _; [by apply spec_ret|].
  eapply spec_bind; [by apply spec_callWriter|]. intros [e|] _; [by apply spec_ret|].
  apply IH.
Qed.
End StreamerSpecs.

(** The run name a pod is labelled with: the local variable [pipelineRun]
    of [GetRunningBuildLogs]. *)
Definition runLabel (hp : Helpers) (pod : Pod) : string :=
  label (pod_Labels pod) (LabelPipelineRunName hp).

(** No run name is streamed in two different passes. *)
Definition atMostOnce (tr : list Event) : Prop :=
  ∀ pass1 pass2 run ns1 ns2 pod1 pod2 c1 c2,
    EvStreamLog pass1 run ns1 pod1 c1 ∈ tr →
    EvStreamLog pass2 run ns2 pod2 c2 ∈ tr →
    pass1 = pass2.

Section TrackerSpecs.
Context {K W : Type} (cl : Clients K) `{LW : LogWriter W} (hp : Helpers).

Lemma getPipelineRunNamesForActivity_spec pa :
  spec notStream (fun _ => True) (getPipelineRunNamesForActivity (W := W) cl pa).
Proof.
  unfold getPipelineRunNamesForActivity.
  eapply spec_bind; [by apply spec_callClient|]. intros [items [e|]] _.
  - by apply spec_ret.
  - eapply spec_bind; [apply spec_deref|]. intros l _. by apply spec_ret.
Qed.

(** A pass streams only pods that match and whose run name is not in the
    logged set, and records the run name of each of them. *)
Lemma streamPods_spec pollFuel pass pa buildName logged pods seen found :
  spec
    (streams (fun p r =>
       p = pass ∧ logged !! r = None
       ∧ ∃ pod0, pod0 ∈ pods ∧ podMatches hp pa pod0 = true ∧ r = runLabel hp pod0))
    (fun res =>
       match res with
       | Next (seen', _) =>
           (∀ r, is_Some (seen !! r) → is_Some (seen' !! r))
           ∧ ∀ pod0, pod0 ∈ pods → podMatches hp pa pod0 = true →
                     logged !! runLabel hp pod0 = None →
                     is_Some (seen' !! runLabel hp pod0)
       | Return _ => True
       end)
    (streamPods cl hp pollFuel pass pa buildName logged pods seen found).
Proof.
  revert seen found. induction pods as [|pod pods IH]; intros seen found; simpl.
  { apply spec_ret. split; [done|]. intros pod0 Hin. by apply elem_of_nil in Hin. }
  fold (runLabel hp pod).
  assert (Htail : ∀ seen1 found1,
    (∀ r, is_Some (seen !! r) → is_Some (seen1 !! r)) →
    (podMatches hp pa pod = true → logged !! runLabel hp pod = None →
     is_Some (seen1 !! runLabel hp pod)) →
    spec
      (streams (fun p r =>
         p = pass ∧ logged !! r = None
         ∧ ∃ pod0, pod0 ∈ pod :: pods ∧ podMatches hp pa pod0 = true
                   ∧ r = runLabel hp pod0))
      (fun res =>
         match res with
         | Next (seen', _) =>
             (∀ r, is_Some (seen !! r) → is_Some (seen' !! r))
             ∧ ∀ pod0, pod0 ∈ pod :: pods → podMatches hp pa pod0 = true →
                       logged !! runLabel hp pod0 = None →
                       is_Some (seen' !! runLabel hp pod0)
         | Return _ => True
         end)
      (streamPods cl hp pollFuel pass pa buildName logged pods seen1 found1)).
  { intros seen1 found1 Hmono Hhead.
    eapply spec_weaken; [| |apply IH].
    - intros [] ; simpl; try done. intros (-> & Hl & q & Hin & Hm & ->).
      split; [done|]. split; [done|]. exists q. split; [by apply list_elem_of_further|done].
    - intros [[seen' found']|e]; [|done]. intros [Hs Hp]. split; [by auto|].
      intros pod0 [->|Hin]%elem_of_cons Hm Hl; [by auto|]. by apply Hp. }
  case_bool_decide as Hseen; simpl.
  { apply Htail; [done|]. intros _ Hl. rewrite Hl in Hseen. by destruct Hseen. }
  destruct (podMatches hp pa pod) eqn:Hm; simpl.
  2:{ apply Htail; [done|]. done. }
  assert (Hnone : logged !! runLabel hp pod = None).
  { destruct (logged !! runLabel hp pod) eqn:E; [|done]. destruct Hseen. by eexists. }
  eapply spec_bind with (Q := fun _ => True).
  { eapply spec_weaken; [| |apply streamContainers_spec]; [|done].
    intros []; simpl; try done. intros [-> ->]. split; [done|]. split; [done|].
    exists pod. split; [apply list_elem_of_here|done]. }
  intros [[]|e] _; [|by apply spec_ret].
  apply Htail.
  - intros r Hr. destruct (decide (runLabel hp pod = r)) as [<-|Hne].
    + rewrite lookup_insert_eq. by eexists.
    + by rewrite lookup_insert_ne.
  - intros _ _. rewrite lookup_insert_eq. by eexists.
Qed.
End TrackerSpecs.

(** Every call of [StreamLog] so far was made in an earlier pass, for a run
    name that is in the logged set. *)
Definition loggedBefore (pass : nat) (logged : gmap string bool) (tr : list Event) : Prop :=
  Forall (streams (fun p r => (p < pass)%nat ∧ is_Some (logged !! r))) tr.

Lemma atMostOnce_extend pass logged tr new :
  loggedBefore pass logged tr →
  atMostOnce tr →
  Forall (streams (fun p r => p = pass ∧ logged !! r = None)) new →
  atMostOnce (tr ++ new).
Proof.
  intros Hold Hamo Hnew p1 p2 run ns1 ns2 pod1 pod2 c1 c2 H1 H2.
  unfold loggedBefore in Hold. rewrite Forall_forall in Hold, Hnew.
  apply elem_of_app in H1 as [H1|H1]; apply elem_of_app in H2 as [H2|H2].
  - by eapply Hamo.
  - apply Hold in H1 as [_ [v Hv]]. apply Hnew in H2 as [_ Hn]. simpl in *. congruence.
  - apply Hold in H2 as [_ [v Hv]]. apply Hnew in H1 as [_ Hn]. simpl in *. congruence.
  - apply Hnew in H1 as [-> _]. apply Hnew in H2 as [-> _]. done.
Qed.

Section TrackerInvariant.
Context {K W : Type} (cl : Clients K) `{LW : LogWriter W} (hp : Helpers).

Lemma loopPass_post pollFuel pass pa buildName logged found (st : state K W) o st' :
  loopPass cl hp pollFuel pass pa buildName logged found st = (o, st') →
  ∃ new, trace st' = trace st ++ new
    ∧ Forall (streams (fun p r => p = pass ∧ logged !! r = None)) new
    ∧ ∀ names' logged' found', o = Done (Next (names', logged', found')) →
        (∀ r, is_Some (logged !! r) → is_Some (logged' !! r))
        ∧ Forall (streams (fun _ r => is_Some (logged' !! r))) new.
Proof.
  unfold loopPass, bind at 1, callClient at 1.
  destruct (GetBuildPods cl (pa_Namespace pa) (clients st)) as [k [pods [e|]]].
  { intros [= <- <-]. exists [EvGetBuildPods (pa_Namespace pa)].
    split; [done|]. split; [by repeat constructor|]. intros ??? [=]. }
  set (st1 := {| clients := k; writer := writer st;
                 trace := trace st ++ [EvGetBuildPods (pa_Namespace pa)] |}).
  unfold bind at 1.
  destruct (streamPods cl hp pollFuel pass pa buildName logged
              (sortSlice createdBefore pods) ∅ found st1) as [[r| |] st2] eqn:E;
    destruct (streamPods_spec cl hp _ _ _ _ _ _ _ _ _ _ _ E)
      as [(new2 & Ht2 & HF2) HQ2]; simpl in Ht2.
  2,3: intros [= <- <-]; exists (EvGetBuildPods (pa_Namespace pa) :: new2);
       (split; [by rewrite Ht2, <- app_assoc|]); (split; [|by intros ??? [=]]);
       constructor; [done|]; eapply Forall_impl; [exact HF2|];
       intros ev; apply streams_impl; by intros ? ? (? & ? & _).
  destruct r as [[seen' found']|e].
  2:{ intros [= <- <-]. exists (EvGetBuildPods (pa_Namespace pa) :: new2).
      split; [by rewrite Ht2, <- app_assoc|]. split; [|by intros ??? [=]].
      constructor; [done|]. eapply Forall_impl; [exact HF2|].
      intros ev; apply streams_impl; by intros ? ? (? & ? & _). }
  destruct (HQ2 _ eq_refl) as [_ Hcover].
  unfold bind at 1.
  destruct (getPipelineRunNamesForActivity cl pa st2) as [[[names err]| |] st3] eqn:E3;
    destruct (getPipelineRunNamesForActivity_spec cl pa _ _ _ E3)
      as [(new3 & Ht3 & HF3) _].
  2,3: intros [= <- <-]; exists (EvGetBuildPods (pa_Namespace pa) :: new2 ++ new3);
       (split; [by rewrite Ht3, Ht2, <- !app_assoc|]); (split; [|by intros ??? [=]]);
       constructor; [done|]; apply Forall_app; split;
       [eapply Forall_impl; [exact HF2|]; intros ev; apply streams_impl; by intros ? ? (? & ? & _)
       |eapply Forall_impl; [exact HF3|]; by intros []].
  assert (Hnew : Forall (streams (fun p r => p = pass ∧ logged !! r = None))
                   (EvGetBuildPods (pa_Namespace pa) :: new2 ++ new3)).
  { constructor; [done|]. apply Forall_app. split.
    - eapply Forall_impl; [exact HF2|]. intros ev; apply streams_impl; by intros ? ? (? & ? & _).
    - eapply Forall_impl; [exact HF3|]. by intros []. }
  destruct err as [e|]; intros [= <- <-];
    exists (EvGetBuildPods (pa_Namespace pa) :: new2 ++ new3);
    (split; [by rewrite Ht3, Ht2, <- !app_assoc|]); (split; [done|]).
  { intros ??? [=]. }
  intros names' logged' found'' [= <- <- <-]. split.
  - intros r Hr. apply lookup_union_is_Some. by right.
  - constructor; [done|]. apply Forall_app. split.
    + eapply Forall_impl; [exact HF2|]. intros []; simpl; try done.
      intros (_ & Hl & q & Hin & Hm & ->).
      apply lookup_union_is_Some. left. by apply Hcover.
    + eapply Forall_impl; [exact HF3|]. by intros [].
Qed.

Lemma trackRuns_atMostOnce fuel pollFuel pass pa buildName names logged found
    (st : state K W) o st' :
  trackRuns cl hp fuel pollFuel pass pa buildName names logged found st = (o, st') →
  loggedBefore pass logged (trace st) →
  atMostOnce (trace st) →
  atMostOnce (trace st').
Proof.
  revert pass names logged found st.
  induction fuel as [|fuel IH]; intros pass names logged found st; simpl;
    destruct (size logged <? length names)%nat.
  - by intros [= <- <-].
  - destruct (negb found); by intros [= <- <-].
  - unfold bind.
    destruct (loopPass cl hp pollFuel pass pa buildName logged found st)
      as [[r| |] st1] eqn:E;
      destruct (loopPass_post _ _ _ _ _ _ _ _ _ E) as (new & Ht & Hnew & Hnext);
      intros Hrun Hold Hamo;
      assert (Hamo1 : atMostOnce (trace st1))
        by (rewrite Ht; by eapply atMostOnce_extend).
    + destruct r as [[[names' logged'] found']|e]; [|by injection Hrun as <- <-].
      destruct (Hnext _ _ _ eq_refl) as [Hmono Hin].
      eapply IH; [exact Hrun| |done].
      unfold loggedBefore in *. rewrite Ht. apply Forall_app. split.
      * eapply Forall_impl; [exact Hold|]. intros []; simpl; try done.
        intros [Hlt Hs]. split; [lia|by apply Hmono].
      * rewrite Forall_forall in Hnew, Hin. apply Forall_forall. intros ev Hev.
        specialize (Hnew ev Hev). specialize (Hin ev Hev).
        destruct ev; simpl in *; try done. destruct Hnew as [-> _]. split; [lia|done].
    + by injection Hrun as <- <-.
    + by injection Hrun as <- <-.
  - destruct (negb found); by intros [= <- <-].
Qed.
End TrackerInvariant.

(** A pod whose run name is in the logged set is passed over. *)
Lemma streamPods_skips_logged {K W : Type} (cl : Clients K) `{LW : LogWriter W}
    (hp : Helpers) pollFuel pass pa buildName logged pod rest seen found (st : state K W) :
  is_Some (logged !! runLabel hp pod) →
  streamPods cl hp pollFuel pass pa buildName logged (pod :: rest) seen found st
  = streamPods cl hp pollFuel pass pa buildName logged rest seen found st.
Proof.
  intros Hs. cbn [streamPods]. fold (runLabel hp pod).
  by rewrite bool_decide_eq_true_2.
Qed.

(** A call starts from an empty trace. *)
Definition fresh {K W : Type} (k : K) (w : W) : state K W :=
  {| clients := k; writer := w; trace := [] |}.

(** C1. Whatever the platform and the writer answer, and however long the
    loop runs, the calls of [StreamLog] made for one run name all belong to
    one pass of the loop: once a pass has recorded the run name in the
    logged set, no later pass streams a pod labelled with it. In a pass, a
    pod whose run name is in the logged set is passed over, whether or not
    the run is still among the run names. *)
Theorem at_most_once_logging {K W : Type} (cl : Clients K) (LW : LogWriter W)
    (hp : Helpers) (fuel pollFuel : nat) (pa : PipelineActivity) (buildName : string)
    (k : K) (w : W) :
  atMostOnce (trace (GetRunningBuildLogs cl hp fuel pollFuel pa buildName (fresh k w)).2)
  ∧ ∀ pass logged pod rest seen found (st : state K W),
      is_Some (logged !! runLabel hp pod) →
      streamPods cl hp pollFuel pass pa buildName logged (pod :: rest) seen found st
      = streamPods cl hp pollFuel pass pa buildName logged rest seen found st.
Proof.
  split; [|intros; by apply streamPods_skips_logged].
  unfold GetRunningBuildLogs, bind.
  destruct (getPipelineRunNamesForActivity cl pa (fresh k w)) as [[[names err]| |] st1] eqn:E;
    destruct (getPipelineRunNamesForActivity_spec cl pa _ _ _ E) as [(new & Ht & HF) _];
    simpl in Ht.
  2,3: simpl; rewrite Ht; intros ????????? H1; rewrite Forall_forall in HF;
       by apply HF in H1.
  assert (Hno : ∀ p r ns pod c, EvStreamLog p r ns pod c ∉ trace st1).
  { intros p r ns pod c H1. rewrite Ht in H1. rewrite Forall_forall in HF.
    by apply HF in H1. }
  destruct err as [e|]; simpl.
  { intros ????????? H1. by apply Hno in H1. }
  destruct (trackRuns cl hp fuel pollFuel 0 pa buildName names ∅ false st1)
    as [o st'] eqn:E'. simpl.
  eapply trackRuns_atMostOnce; [exact E'| |].
  - apply Forall_forall. intros [] Hev; simpl; try done. by apply Hno in Hev.
  - intros ????????? H1. by apply Hno in H1.
Qed.

(** A run that stays visible is streamed in one pass only. At entry the
    record has the run run-a; run-b and its pod appear during the first
    pass. The first pass streams the pod of run-a; the second pass lists it
    again, passes over it and streams the pod of run-b only. *)
Definition podOf (name run : string) (created : Z) : Pod := {|
  pod_Name := name;
  pod_Labels :=
    <["owner" := "acme"]> (<["repository" := "widgets"]> (<["branch" := "master"]>
      (<["build" := "7"]> (<["tekton.dev/pipelineRun" := run]> ∅))));
  pod_CreationTimestamp := created;
  pod_Phase := PodSucceeded;
  pod_Containers := [{| c_Name := "step" |}];
  pod_Statuses := [Terminated]
|}.

Definition lateRun : Script := {|
  activitiesAt _ := (Some [acmeActivity], None);
  runsAt k :=
    if (k <? 1)%nat then (Some [acmeRun "run-a" "" 100], None)
    else (Some [acmeRun "run-a" "" 100; acmeRun "run-b" "" 200], None);
  podsAt k :=
    if (k <? 2)%nat then ([podOf "pod-a" "run-a" 5], None)
    else ([podOf "pod-b" "run-b" 9; podOf "pod-a" "run-a" 5], None);
  podAt _ _ := (None, None);
  readAt _ _ := ("", None)
|}.

Example second_pass_skips_logged_run :
  GetRunningBuildLogs (LW := countingWriter) (scripted lateRun) labelHelpers 4 0
    acmeActivity "7" start
  = (Done None,
     {| clients := 5%nat; writer := 4%nat;
        trace :=
          [EvListPipelineRuns "jx" "owner=acme,repo=widgets,branch=master,build=7";
           EvGetBuildPods "jx";
           EvWriteLog (header labelHelpers "7" "" "step");
           EvStreamLog 0 "run-a" "jx" (Some (podOf "pod-a" "run-a" 5)) {| c_Name := "step" |};
           EvListPipelineRuns "jx" "owner=acme,repo=widgets,branch=master,build=7";
           EvGetBuildPods "jx";
           EvWriteLog (header labelHelpers "7" "" "step");
           EvStreamLog 1 "run-b" "jx" (Some (podOf "pod-b" "run-b" 9)) {| c_Name := "step" |};
           EvListPipelineRuns "jx" "owner=acme,repo=widgets,branch=master,build=7"] |}).
Proof. reflexivity. Qed.

(** ** The run-name query and the empty record *)

Section Entry.
Context {K W : Type} (cl : Clients K) `{LW : LogWriter W} (hp : Helpers).

(** The event of the run-name query of an activity. *)
Definition namesQuery (pa : PipelineActivity) : Event :=
  EvListPipelineRuns (pa_Namespace pa) (Join (activityFilters pa) ",").

Lemma getPipelineRunNamesForActivity_ok pa (st : state K W) k items :
  ListPipelineRuns cl (pa_Namespace pa) (Join (activityFilters pa) ",") (clients st)
  = (k, (Some items, None)) →
  getPipelineRunNamesForActivity cl pa st
  = (Done (map pr_Name items, None),
     {| clients := k; writer := writer st; trace := trace st ++ [namesQuery pa] |}).
Proof.
  intros H. unfold getPipelineRunNamesForActivity, bind, callClient. by rewrite H.
Qed.
End Entry.

(** C10. When the run-name query at entry answers with an empty list, the
    call returns the garbage-collected error with any fuel, zero included:
    the loop body is not entered. The only call made is that query: no pod
    is listed and the writer is not called, its state being as before. *)
Theorem no_runs_no_passes {K W : Type} (cl : Clients K) (LW : LogWriter W) (hp : Helpers)
    (fuel pollFuel : nat) (pa : PipelineActivity) (buildName : string)
    (st : state K W) (k : K) :
  ListPipelineRuns cl (pa_Namespace pa) (Join (activityFilters pa) ",") (clients st)
  = (k, (Some [], None)) →
  GetRunningBuildLogs cl hp fuel pollFuel pa buildName st
  = (Done (Some garbageCollected),
     {| clients := k; writer := writer st; trace := trace st ++ [namesQuery pa] |}).
Proof.
  intros H. unfold GetRunningBuildLogs, bind.
  rewrite (getPipelineRunNamesForActivity_ok cl pa st k [] H). simpl.
  by destruct fuel.
Qed.

Definition noRuns : Script := {|
  activitiesAt _ := (Some [acmeActivity], None);
  runsAt _ := (Some [], None);
  podsAt _ := ([], None);
  podAt _ _ := (None, None);
  readAt _ _ := ("", None)
|}.

Lemma no_runs_no_passes_witness :
  GetRunningBuildLogs (LW := countingWriter) (scripted noRuns) labelHelpers 0 0
    acmeActivity "7" start
  = (Done (Some garbageCollected),
     {| clients := 1%nat; writer := 0%nat;
        trace := [EvListPipelineRuns "jx" "owner=acme,repo=widgets,branch=master,build=7"] |}).
Proof.
  apply (no_runs_no_passes (scripted noRuns) countingWriter labelHelpers 0 0
           acmeActivity "7" start 1%nat).
  reflexivity.
Defined.

(** ** When no pod matches *)

Section NoMatch.
Context {K W : Type} (cl : Clients K) `{LW : LogWriter W} (hp : Helpers).
Variable pa : PipelineActivity.

(** Every pod listing succeeds and holds no pod that matches [pa]. *)
Definition neverMatches : Prop :=
  ∀ k, ∃ k' pods,
    GetBuildPods cl (pa_Namespace pa) k = (k', (pods, None))
    ∧ Forall (fun p => podMatches hp pa p = false) pods.

(** Every run-name query succeeds. *)
Definition namesAnswered : Prop :=
  ∀ k, ∃ k' items,
    ListPipelineRuns cl (pa_Namespace pa) (Join (activityFilters pa) ",") k
    = (k', (Some items, None)).

(** [runsGoneWithin n k]: asked in the platform state [k], and then again
    after each pod listing, the run-name query answers with an empty list
    after [n] pod listings at most. *)
Inductive runsGoneWithin : nat → K → Prop :=
| gone_now n k k' :
    ListPipelineRuns cl (pa_Namespace pa) (Join (activityFilters pa) ",") k
    = (k', (Some [], None)) →
    runsGoneWithin n k
| gone_later n k k1 items k2 pods :
    ListPipelineRuns cl (pa_Namespace pa) (Join (activityFilters pa) ",") k
    = (k1, (Some items, None)) →
    items ≠ [] →
    GetBuildPods cl (pa_Namespace pa) k1 = (k2, (pods, None)) →
    runsGoneWithin n k2 →
    runsGoneWithin (S n) k.

(** No run-name query answers with an empty list. *)
Definition runsPersist : Prop :=
  ∀ k k' items,
    ListPipelineRuns cl (pa_Namespace pa) (Join (activityFilters pa) ",") k
    = (k', (Some items, None)) →
    items ≠ [].

Lemma streamPods_no_match pollFuel pass buildName logged pods seen found (st : state K W) :
  Forall (fun p => podMatches hp pa p = false) pods →
  streamPods cl hp pollFuel pass pa buildName logged pods seen found st
  = (Done (Next (seen, found)), st).
Proof.
  induction 1 as [|pod pods Hm _ IH]; simpl; [done|].
  rewrite Hm, andb_false_r. exact IH.
Qed.

Lemma loopPass_no_match_at pollFuel pass buildName found (st : state K W)
    k1 pods k2 items :
  GetBuildPods cl (pa_Namespace pa) (clients st) = (k1, (pods, None)) →
  Forall (fun p => podMatches hp pa p = false) pods →
  ListPipelineRuns cl (pa_Namespace pa) (Join (activityFilters pa) ",") k1
  = (k2, (Some items, None)) →
  loopPass cl hp pollFuel pass pa buildName ∅ found st
  = (Done (Next (map pr_Name items, ∅, found)),
     {| clients := k2; writer := writer st;
        trace := (trace st ++ [EvGetBuildPods (pa_Namespace pa)]) ++ [namesQuery pa] |}).
Proof.
  intros Hk1 Hno Hk2.
  unfold loopPass, bind at 1, callClient at 1. rewrite Hk1.
  unfold bind at 1. rewrite streamPods_no_match; cycle 1.
  { apply Forall_forall. intros p Hp. apply sortSlice_elem_of in Hp.
    by eapply Forall_forall in Hno. }
  unfold bind at 1.
  erewrite getPipelineRunNamesForActivity_ok by exact Hk2.
  by rewrite (left_id_L ∅ (∪)).
Qed.

Lemma loopPass_no_match pollFuel pass buildName found (st : state K W) :
  neverMatches → namesAnswered →
  ∃ names st',
    loopPass cl hp pollFuel pass pa buildName ∅ found st
    = (Done (Next (names, ∅, found)), st')
    ∧ writer st' = writer st
    ∧ ∃ k1 k2 items,
        ListPipelineRuns cl (pa_Namespace pa) (Join (activityFilters pa) ",") k1
        = (k2, (Some items, None))
        ∧ names = map pr_Name items.
Proof.
  intros Hpods Hruns.
  destruct (Hpods (clients st)) as (k1 & pods & Hk1 & Hno).
  destruct (Hruns k1) as (k2 & items & Hk2).
  exists (map pr_Name items). eexists.
  split; [by eapply loopPass_no_match_at|]. split; [reflexivity|].
  by exists k1, k2, items.
Qed.

Lemma trackRuns_no_match fuel pollFuel pass buildName names (st : state K W) :
  neverMatches → namesAnswered →
  ∃ o st',
    trackRuns cl hp fuel pollFuel pass pa buildName names ∅ false st = (o, st')
    ∧ (o = Done (Some garbageCollected) ∨ o = OutOfFuel)
    ∧ writer st' = writer st.
Proof.
  intros Hpods Hruns. revert pass names st.
  induction fuel as [|fuel IH]; intros pass names st; simpl;
    destruct (size (∅ : gmap string bool) <? length names)%nat.
  - eexists _, _. split; [reflexivity|]. split; [by right|done].
  - eexists _, _. split; [reflexivity|]. split; [by left|done].
  - destruct (loopPass_no_match pollFuel pass buildName false st Hpods Hruns)
      as (names' & st1 & Hpass & Hw & _).
    unfold bind. rewrite Hpass.
    destruct (IH (S pass) names' st1) as (o & st' & Hrun & Ho & Hw').
    exists o, st'. split; [exact Hrun|]. split; [done|]. by rewrite Hw'.
  - eexists _, _. split; [reflexivity|]. split; [by left|done].
Qed.

(** Once the run names are gone and no pod has matched, the loop ends with
    the garbage-collected error. *)
Lemma trackRuns_gone n k :
  neverMatches → namesAnswered →
  runsGoneWithin n k →
  ∀ fuel pollFuel pass buildName (st : state K W) k1 items,
    ListPipelineRuns cl (pa_Namespace pa) (Join (activityFilters pa) ",") k
    = (k1, (Some items, None)) →
    clients st = k1 →
    (n ≤ fuel)%nat →
    (trackRuns cl hp fuel pollFuel pass pa buildName (map pr_Name items) ∅ false st).1
    = Done (Some garbageCollected).
Proof.
  intros Hpods Hruns.
  induction 1 as [n k k' Hk|n k k1' items' k2 pods Hk Hne Hk2 Hgone IH];
    intros fuel pollFuel pass buildName st k1 items Hq Hst Hfuel;
    rewrite Hk in Hq; injection Hq as <- <-.
  - by destruct fuel.
  - destruct fuel as [|fuel]; [lia|].
    destruct items' as [|r items']; [done|].
    cbn [trackRuns map length]. rewrite map_size_empty. cbn [Nat.ltb Nat.leb].
    destruct (Hpods k1') as (k2' & pods' & Hk2' & Hno).
    rewrite Hk2 in Hk2'. injection Hk2' as <- <-.
    destruct (Hruns k2) as (k3 & items2 & Hk3).
    rewrite <- Hst in Hk2.
    unfold bind. rewrite (loopPass_no_match_at _ _ _ _ _ _ _ _ _ Hk2 Hno Hk3).
    eapply IH; [exact Hk3|done|lia].
Qed.

(** While run names stay visible and no pod matches, the loop goes on. *)
Lemma trackRuns_spins fuel pollFuel pass buildName names (st : state K W) :
  neverMatches → namesAnswered → runsPersist →
  names ≠ [] →
  (trackRuns cl hp fuel pollFuel pass pa buildName names ∅ false st).1 = OutOfFuel.
Proof.
  intros Hpods Hruns Hpersist. revert pass names st.
  induction fuel as [|fuel IH]; intros pass names st Hne; simpl;
    rewrite map_size_empty;
    destruct names as [|n names]; try done.
  destruct (loopPass_no_match pollFuel pass buildName false st Hpods Hruns)
    as (names' & st1 & Hpass & Hw & k1 & k2 & items & Hk & ->).
  simpl. unfold bind. rewrite Hpass. apply IH.
  apply Hpersist in Hk. by destruct items.
Qed.

Lemma GetRunningBuildLogs_gone n fuel pollFuel buildName (st : state K W) :
  neverMatches → namesAnswered →
  runsGoneWithin n (clients st) → (n ≤ fuel)%nat →
  (GetRunningBuildLogs cl hp fuel pollFuel pa buildName st).1 = Done (Some garbageCollected).
Proof.
  intros Hpods Hruns Hgone Hfuel.
  destruct (Hruns (clients st)) as (k1 & items & Hk).
  unfold GetRunningBuildLogs, bind.
  erewrite getPipelineRunNamesForActivity_ok by exact Hk.
  by eapply trackRuns_gone.
Qed.

Lemma GetRunningBuildLogs_spins fuel pollFuel buildName (st : state K W) :
  neverMatches → namesAnswered → runsPersist →
  (GetRunningBuildLogs cl hp fuel pollFuel pa buildName st).1 = OutOfFuel.
Proof.
  intros Hpods Hruns Hpersist.
  destruct (Hruns (clients st)) as (k1 & items & Hk).
  unfold GetRunningBuildLogs, bind.
  erewrite getPipelineRunNamesForActivity_ok by exact Hk.
  apply trackRuns_spins; try done. apply Hpersist in Hk. by destruct items.
Qed.
End NoMatch.

(** C2, as the code has it. When no pod ever matches and every query
    succeeds, the garbage-collected error is the only result the call can
    return (it returns neither nil nor another error), and the writer is
    not called. The call returns it once the run-name query has answered
    with an empty list, at entry or after a pass; but as long as that query
    keeps answering with run names the loop goes on, and the call returns
    with no amount of fuel. *)
Theorem no_match_only_garbage_collected {K W : Type} (cl : Clients K) (LW : LogWriter W)
    (hp : Helpers) (pa : PipelineActivity) (fuel pollFuel : nat) (buildName : string)
    (st : state K W) :
  neverMatches cl hp pa →
  namesAnswered cl pa →
  ((GetRunningBuildLogs cl hp fuel pollFuel pa buildName st).1 = Done (Some garbageCollected)
   ∨ (GetRunningBuildLogs cl hp fuel pollFuel pa buildName st).1 = OutOfFuel)
  ∧ writer (GetRunningBuildLogs cl hp fuel pollFuel pa buildName st).2 = writer st
  ∧ (∀ n, runsGoneWithin cl pa n (clients st) → (n ≤ fuel)%nat →
          (GetRunningBuildLogs cl hp fuel pollFuel pa buildName st).1
          = Done (Some garbageCollected))
  ∧ (runsPersist cl pa →
     (GetRunningBuildLogs cl hp fuel pollFuel pa buildName st).1 = OutOfFuel).
Proof.
  intros Hpods Hruns. split; [|split; [|split]]; cycle 2.
  { intros n Hgone Hfuel. by eapply GetRunningBuildLogs_gone. }
  { intros Hpersist. by apply GetRunningBuildLogs_spins. }
  - destruct (Hruns (clients st)) as (k1 & items & Hk).
    unfold GetRunningBuildLogs, bind.
    erewrite getPipelineRunNamesForActivity_ok by exact Hk.
    destruct (trackRuns_no_match cl hp pa fuel pollFuel 0 buildName (map pr_Name items)
                {| clients := k1; writer := writer st;
                   trace := trace st ++ [namesQuery pa] |} Hpods Hruns)
      as (o & st' & Hrun & Ho & _).
    rewrite Hrun. exact Ho.
  - destruct (Hruns (clients st)) as (k1 & items & Hk).
    unfold GetRunningBuildLogs, bind.
    erewrite getPipelineRunNamesForActivity_ok by exact Hk.
    destruct (trackRuns_no_match cl hp pa fuel pollFuel 0 buildName (map pr_Name items)
                {| clients := k1; writer := writer st;
                   trace := trace st ++ [namesQuery pa] |} Hpods Hruns)
      as (o & st' & Hrun & _ & Hw).
    rewrite Hrun. exact Hw.
Qed.

(** The run of build 7 stays visible for the first three calls and is gone
    afterwards; no pod is ever listed. *)
Definition vanishing : Script := {|
  activitiesAt _ := (Some [acmeActivity], None);
  runsAt k := if (k <? 3)%nat then (Some [acmeRun "run-a" "" 100], None) else (Some [], None);
  podsAt _ := ([], None);
  podAt _ _ := (None, None);
  readAt _ _ := ("", None)
|}.

Example vanishing_gone_within_two :
  runsGoneWithin (scripted vanishing) acmeActivity 2 0%nat.
Proof.
  eapply gone_later; [reflexivity|discriminate|reflexivity|].
  eapply gone_later; [reflexivity|discriminate|reflexivity|].
  eapply gone_now. reflexivity.
Qed.

Lemma no_match_only_garbage_collected_witness :
  (GetRunningBuildLogs (LW := countingWriter) (scripted vanishing) labelHelpers 5 0
     acmeActivity "7" start).1 = Done (Some garbageCollected)
  ∧ ((GetRunningBuildLogs (LW := countingWriter) (scripted vanishing) labelHelpers 5 0
        acmeActivity "7" start).1 = Done (Some garbageCollected)
     ∨ (GetRunningBuildLogs (LW := countingWriter) (scripted vanishing) labelHelpers 5 0
          acmeActivity "7" start).1 = OutOfFuel)
  ∧ writer (GetRunningBuildLogs (LW := countingWriter) (scripted vanishing) labelHelpers 5 0
              acmeActivity "7" start).2 = writer start
  ∧ (∀ n, runsGoneWithin (scripted vanishing) acmeActivity n (clients start) → (n ≤ 5)%nat →
          (GetRunningBuildLogs (LW := countingWriter) (scripted vanishing) labelHelpers 5 0
             acmeActivity "7" start).1 = Done (Some garbageCollected))
  ∧ (runsPersist (scripted vanishing) acmeActivity →
     (GetRunningBuildLogs (LW := countingWriter) (scripted vanishing) labelHelpers 5 0
        acmeActivity "7" start).1 = OutOfFuel).
Proof.
  split; [reflexivity|].
  apply (no_match_only_garbage_collected (scripted vanishing) countingWriter labelHelpers
           acmeActivity 5 0 "7" start).
  - intros k. exists (S k), []. split; [reflexivity|constructor].
  - intros k. simpl. destruct (k <? 3)%nat; eexists _, _; reflexivity.
Defined.

(** The run of build 7 stays visible for ever; no pod is ever listed. *)
Definition stuck : Script := {|
  activitiesAt _ := (Some [acmeActivity], None);
  runsAt _ := (Some [acmeRun "run-a" "" 100], None);
  podsAt _ := ([], None);
  podAt _ _ := (None, None);
  readAt _ _ := ("", None)
|}.

(** C2 fails as stated: no pod ever matches (none exists), every query
    succeeds, and the call returns nothing, whatever the fuel. *)
Lemma fallback_trigger_counterexample :
  neverMatches (scripted stuck) labelHelpers acmeActivity
  ∧ ¬ ∃ fuel pollFuel r,
        (GetRunningBuildLogs (LW := countingWriter) (scripted stuck) labelHelpers
           fuel pollFuel acmeActivity "7" start).1 = Done r.
Proof.
  assert (Hpods : neverMatches (scripted stuck) labelHelpers acmeActivity).
  { intros k. exists (S k), []. split; [reflexivity|constructor]. }
  split; [exact Hpods|].
  intros (fuel & pollFuel & r & Hr).
  rewrite (GetRunningBuildLogs_spins (LW := countingWriter) (scripted stuck) labelHelpers
             acmeActivity fuel pollFuel "7" start) in Hr; [discriminate|exact Hpods|..].
  - intros k. eexists _, _. reflexivity.
  - intros k k' items [= _ <-]. discriminate.
Qed.

(** ** A pod whose phase is failed *)

(** The writer never reports an error. *)
Definition neverFails {W : Type} (LW : LogWriter W) : Prop :=
  (∀ line w, (WriteLog line w).2 = None)
  ∧ (∀ ns pod c w, (StreamLog ns pod c w).2 = None).

Definition failedWarning (pod : Pod) : Event :=
  EvWarn ("pod " +:+ pod_Name pod +:+ " has failed").

Section FailedPod.
Context {K W : Type} (cl : Clients K) `{LW : LogWriter W} (hp : Helpers).

Lemma waitForContainerToStart_failed pollFuel ns pod idx (st : state K W) :
  pod_Phase pod = PodFailed →
  waitForContainerToStart cl hp pollFuel ns (Some pod) idx st
  = (Done (Some pod, None), emit (failedWarning pod) st).
Proof.
  intros Hph. unfold waitForContainerToStart, bind. simpl. by rewrite Hph.
Qed.

(** What the container loop does for one container of a failed pod. *)
Definition failedContainerEvents (pass : nat) (pa : PipelineActivity)
    (buildName stageName pipelineRun : string) (pod : Pod) (ic : Container) : list Event :=
  [failedWarning pod;
   EvWriteLog (header hp buildName stageName (c_Name ic));
   EvStreamLog pass pipelineRun (pa_Namespace pa) (Some pod) ic].

Lemma streamContainers_failed pollFuel pass pa buildName stageName pipelineRun pod i cs
    (st : state K W) :
  pod_Phase pod = PodFailed →
  neverFails LW →
  ∃ st',
    streamContainers cl hp pollFuel pass pa buildName stageName pipelineRun (Some pod) i cs st
    = (Done (Next tt), st')
    ∧ clients st' = clients st
    ∧ trace st'
      = trace st ++ flat_map (failedContainerEvents pass pa buildName stageName pipelineRun pod) cs.
Proof.
  intros Hph [Hwrite Hstream]. revert i st.
  induction cs as [|ic cs IH]; intros i st.
  { exists st. simpl. by rewrite app_nil_r. }
  cbn [streamContainers]. unfold bind at 1.
  rewrite waitForContainerToStart_failed by done.
  unfold bind at 1, callWriter at 1.
  pose proof (Hwrite (header hp buildName stageName (c_Name ic)) (writer (emit (failedWarning pod) st))) as Hw.
  destruct (WriteLog _ _) as [w1 e1]. simpl in Hw. subst e1.
  unfold bind at 1, callWriter at 1. cbn [writer clients trace].
  pose proof (Hstream (pa_Namespace pa) (Some pod) ic w1) as Hs.
  destruct (StreamLog _ _ _ _) as [w2 e2]. simpl in Hs. subst e2.
  edestruct IH as (st' & Hrun & Hc & Ht). rewrite Hrun.
  exists st'. split; [done|]. split; [by rewrite Hc|].
  rewrite Ht. simpl. by rewrite <- !app_assoc.
Qed.
End FailedPod.

(** C5, as the code has it. For a pod whose phase is failed,
    [waitForContainerToStart] returns at once, without polling and without
    an error; the warning goes to the process log and the writer is not
    called. The container loop is not cut short: with a writer that does
    not fail, every container of the pod gets its warning, its header line
    and its call of [StreamLog], and the loop ends without an error. *)
Theorem failed_pod_is_still_streamed {K W : Type} (cl : Clients K) (LW : LogWriter W)
    (hp : Helpers) (pollFuel pass : nat) (pa : PipelineActivity)
    (buildName stageName pipelineRun : string) (pod : Pod) (idx : nat)
    (cs : list Container) (st : state K W) :
  pod_Phase pod = PodFailed →
  neverFails LW →
  waitForContainerToStart cl hp pollFuel (pa_Namespace pa) (Some pod) idx st
  = (Done (Some pod, None),
     {| clients := clients st; writer := writer st;
        trace := trace st ++ [failedWarning pod] |})
  ∧ ∃ st',
      streamContainers cl hp pollFuel pass pa buildName stageName pipelineRun (Some pod) 0 cs st
      = (Done (Next tt), st')
      ∧ clients st' = clients st
      ∧ trace st'
        = trace st
          ++ flat_map (failedContainerEvents hp pass pa buildName stageName pipelineRun pod) cs.
Proof.
  intros Hph Hw. split.
  - by apply waitForContainerToStart_failed.
  - by apply streamContainers_failed.
Qed.

(** The labels of a pod of build 7 of acme/widgets/master, stage ci. *)
Definition podLabels (run : string) : gmap string string :=
  <["owner" := "acme"]> (<["repository" := "widgets"]> (<["branch" := "master"]>
    (<["build" := "7"]> (<["tekton.dev/pipelineRun" := run]>
      (<["jenkins.io/task-stage-name" := "ci"]> ∅))))).

Definition failedPod : Pod := {|
  pod_Name := "pod-a";
  pod_Labels := podLabels "run-a";
  pod_CreationTimestamp := 5;
  pod_Phase := PodFailed;
  pod_Containers := [{| c_Name := "build" |}; {| c_Name := "test" |}];
  pod_Statuses := [Waiting; Waiting]
|}.

Definition oneFailedPod : Script := {|
  activitiesAt _ := (Some [acmeActivity], None);
  runsAt _ := (Some [acmeRun "run-a" "" 100], None);
  podsAt _ := ([failedPod], None);
  podAt _ _ := (None, None);
  readAt _ _ := ("", None)
|}.

Lemma countingWriter_neverFails : neverFails countingWriter.
Proof. split; intros; reflexivity. Qed.

Lemma failed_pod_is_still_streamed_witness :
  waitForContainerToStart (LW := countingWriter) (scripted oneFailedPod) labelHelpers 3
    "jx" (Some failedPod) 0 start
  = (Done (Some failedPod, None),
     {| clients := 0%nat; writer := 0%nat; trace := [EvWarn "pod pod-a has failed"] |})
  ∧ ∃ st',
      streamContainers (LW := countingWriter) (scripted oneFailedPod) labelHelpers 3 0
        acmeActivity "7" "ci" "run-a" (Some failedPod) 0 (pod_Containers failedPod) start
      = (Done (Next tt), st')
      ∧ clients st' = 0%nat
      ∧ trace st'
        = [] ++ flat_map (failedContainerEvents labelHelpers 0 acmeActivity "7" "ci" "run-a"
                            failedPod) (pod_Containers failedPod).
Proof.
  apply (failed_pod_is_still_streamed (scripted oneFailedPod) countingWriter labelHelpers
           3 0 acmeActivity "7" "ci" "run-a" failedPod 0 (pod_Containers failedPod) start).
  - reflexivity.
  - exact countingWriter_neverFails.
Defined.

(** C5 fails as stated: a failed pod with the containers build and test.
    The warnings are events of the process log, the writer gets the header
    line of both containers, and [StreamLog] is called for both: the
    container test is not skipped. *)
Lemma failed_pod_counterexample :
  pod_Phase failedPod = PodFailed
  ∧ GetRunningBuildLogs (LW := countingWriter) (scripted oneFailedPod) labelHelpers 3 3
      acmeActivity "7" start
    = (Done None,
       {| clients := 3%nat; writer := 4%nat;
          trace :=
            [EvListPipelineRuns "jx" "owner=acme,repo=widgets,branch=master,build=7";
             EvGetBuildPods "jx";
             EvWarn "pod pod-a has failed";
             EvWriteLog (header labelHelpers "7" "ci" "build");
             EvStreamLog 0 "run-a" "jx" (Some failedPod) {| c_Name := "build" |};
             EvWarn "pod pod-a has failed";
             EvWriteLog (header labelHelpers "7" "ci" "test");
             EvStreamLog 0 "run-a" "jx" (Some failedPod) {| c_Name := "test" |};
             EvListPipelineRuns "jx" "owner=acme,repo=widgets,branch=master,build=7"] |}).
Proof. split; reflexivity. Qed.

(** ** Runs that resolve at once *)

(** Every container of the pod has started. *)
Definition allStarted (hp : Helpers) (pod : Pod) : Prop :=
  ∀ i, (i < length (GetContainersWithStatusAndIsInit hp pod))%nat →
       HasContainerStarted hp (Some pod) i = true.

(** An event of the writer or of the process log: no call to the platform. *)
Definition writerEvent (e : Event) : Prop :=
  match e with
  | EvWarn _ | EvWriteLog _ | EvStreamLog _ _ _ _ _ => True
  | _ => False
  end.

(** The effect of one pod of a first pass on [runsSeenForPods]. *)
Definition recordSeen (hp : Helpers) (pa : PipelineActivity)
    (seen : gmap string bool) (pod : Pod) : gmap string bool :=
  if podMatches hp pa pod then <[runLabel hp pod := true]> seen else seen.

Lemma recordSeen_lookup hp pa pods seen r :
  is_Some (fold_left (recordSeen hp pa) pods seen !! r)
  ↔ is_Some (seen !! r) ∨ ∃ p, p ∈ pods ∧ podMatches hp pa p = true ∧ runLabel hp p = r.
Proof.
  revert seen. induction pods as [|q pods IH]; intros seen; cbn [fold_left].
  - split; [by left|]. intros [H|(p & Hp & _)]; [done|]. by apply elem_of_nil in Hp.
  - rewrite IH. unfold recordSeen. split.
    + intros [H|(p & Hp & Hm & Hr)].
      * destruct (podMatches hp pa q) eqn:E; [|by left].
        destruct (decide (runLabel hp q = r)) as [Heq|Hne].
        -- right. exists q. split; [apply list_elem_of_here|done].
        -- left. by rewrite lookup_insert_ne in H.
      * right. exists p. split; [by apply list_elem_of_further|done].
    + intros [H|(p & Hp & Hm & Hr)].
      * left. destruct (podMatches hp pa q); [|done].
        destruct (decide (runLabel hp q = r)) as [<-|Hne].
        -- rewrite lookup_insert_eq. by eexists.
        -- by rewrite lookup_insert_ne.
      * apply elem_of_cons in Hp as [->|Hp].
        -- left. rewrite Hm, <- Hr, lookup_insert_eq. by eexists.
        -- right. by exists p.
Qed.

Lemma length_le_size (l : list string) (m : gmap string bool) :
  NoDup l → (∀ x, x ∈ l → is_Some (m !! x)) → (length l ≤ size m)%nat.
Proof.
  intros Hnd Hin.
  rewrite <- (size_list_to_set (C := gset string) l Hnd), <- (size_dom (D := gset string) m).
  apply subseteq_size. intros x Hx. apply elem_of_list_to_set in Hx.
  apply elem_of_dom. by apply Hin.
Qed.

Section Resolvable.
Context {K W : Type} (cl : Clients K) `{LW : LogWriter W} (hp : Helpers).

Lemma appends_emit (P : Event → Prop) (ev : Event) (st : state K W) :
  P ev → appends P st (emit ev st).
Proof. intros HP. exists [ev]. split; [done|]. by constructor. Qed.

Lemma waitForContainerToStart_started pollFuel ns pod idx (st : state K W) :
  HasContainerStarted hp (Some pod) idx = true →
  ∃ st',
    waitForContainerToStart cl hp pollFuel ns (Some pod) idx st = (Done (Some pod, None), st')
    ∧ clients st' = clients st ∧ writer st' = writer st
    ∧ appends writerEvent st st'.
Proof.
  intros Hs. unfold waitForContainerToStart, bind. simpl.
  destruct (PodPhase_eqb (pod_Phase pod) PodFailed).
  - eexists. split; [reflexivity|]. split; [done|]. split; [done|]. by apply appends_emit.
  - rewrite Hs. exists st. split; [done|]. split; [done|]. split; [done|].
    apply appends_refl.
Qed.

Lemma streamContainers_started pollFuel pass pa buildName stageName pipelineRun pod i cs
    (st : state K W) :
  neverFails LW →
  (∀ j, (i ≤ j < i + length cs)%nat → HasContainerStarted hp (Some pod) j = true) →
  ∃ st',
    streamContainers cl hp pollFuel pass pa buildName stageName pipelineRun (Some pod) i cs st
    = (Done (Next tt), st')
    ∧ clients st' = clients st
    ∧ appends writerEvent st st'.
Proof.
  intros [Hwrite Hstream]. revert i st.
  induction cs as [|ic cs IH]; intros i st Hst.
  { exists st. split; [done|]. split; [done|]. apply appends_refl. }
  cbn [streamContainers]. unfold bind at 1.
  destruct (waitForContainerToStart_started pollFuel (pa_Namespace pa) pod i st)
    as (st0 & Hwait & Hc0 & Hw0 & Ha0).
  { apply Hst. simpl. lia. }
  rewrite Hwait.
  unfold bind at 1, callWriter at 1.
  pose proof (Hwrite (header hp buildName stageName (c_Name ic)) (writer st0)) as Hw.
  destruct (WriteLog _ _) as [w1 e1]. simpl in Hw. subst e1.
  unfold bind at 1, callWriter at 1. cbn [writer clients trace].
  pose proof (Hstream (pa_Namespace pa) (Some pod) ic w1) as Hs.
  destruct (StreamLog _ _ _ _) as [w2 e2]. simpl in Hs. subst e2.
  edestruct (IH (S i)) as (st' & Hrun & Hc & Ha).
  { intros j Hj. apply Hst. simpl. lia. }
  rewrite Hrun. exists st'. split; [done|]. split; [by rewrite Hc|].
  eapply appends_trans; [exact Ha0|]. eapply appends_trans; [|exact Ha].
  eexists [_; _]. split; [simpl; by rewrite <- app_assoc|]. by repeat constructor.
Qed.

(** A first pass over pods whose matching members have all started. *)
Lemma streamPods_started pollFuel pass pa buildName pods seen found (st : state K W) :
  neverFails LW →
  (∀ p, p ∈ pods → podMatches hp pa p = true → allStarted hp p) →
  ∃ st',
    streamPods cl hp pollFuel pass pa buildName ∅ pods seen found st
    = (Done (Next (fold_left (recordSeen hp pa) pods seen,
                   found || existsb (podMatches hp pa) pods)), st')
    ∧ clients st' = clients st
    ∧ appends writerEvent st st'.
Proof.
  intros Hnf. revert seen found st.
  induction pods as [|pod pods IH]; intros seen found st Hall.
  { exists st. simpl. rewrite orb_false_r. split; [done|]. split; [done|]. apply appends_refl. }
  cbn [streamPods fold_left existsb]. rewrite lookup_empty.
  rewrite bool_decide_eq_false_2 by (by intros [? ?]). cbn [negb andb].
  unfold recordSeen at 2. fold (runLabel hp pod).
  destruct (podMatches hp pa pod) eqn:Hm.
  - unfold bind.
    edestruct (streamContainers_started pollFuel pass pa buildName
                 (label (pod_Labels pod) "jenkins.io/task-stage-name") (runLabel hp pod)
                 pod 0 (GetContainersWithStatusAndIsInit hp pod) st Hnf)
      as (st1 & Hrun & Hc1 & Ha1).
    { intros j Hj. apply (Hall pod); [apply list_elem_of_here|done|lia]. }
    rewrite Hrun.
    edestruct (IH (<[runLabel hp pod := true]> seen) true st1) as (st' & Hrun' & Hc' & Ha').
    { intros p Hp. apply Hall. by apply list_elem_of_further. }
    rewrite Hrun'. exists st'. cbn [orb]. rewrite orb_true_r.
    split; [done|]. split; [by rewrite Hc'|]. by eapply appends_trans.
  - edestruct (IH seen found st) as (st' & Hrun' & Hc' & Ha').
    { intros p Hp. apply Hall. by apply list_elem_of_further. }
    rewrite Hrun'. by exists st'.
Qed.
End Resolvable.

(** C7. Suppose the writer does not fail, the queries succeed, the record
    has at least one run at entry, the recomputed run names are pairwise
    distinct, every run (at entry and recomputed) has a pod that matches
    and is labelled with its name, and every matching pod has all its
    containers started. Then the first pass ends with every recomputed run
    name in the logged set (the logged set is exactly that set of names
    when the matching pods carry no other run name), the loop condition
    is false after it, and the call returns nil in the very state in which
    the first pass ends: the pods were listed once, and between that
    listing and the second run-name query only the writer and the process
    log were called. *)
Theorem resolvable_runs_one_pass {K W : Type} (cl : Clients K) (LW : LogWriter W)
    (hp : Helpers) (fuel pollFuel : nat) (pa : PipelineActivity) (buildName : string)
    (st : state K W) k1 items0 k2 pods k3 items1 :
  neverFails LW →
  ListPipelineRuns cl (pa_Namespace pa) (Join (activityFilters pa) ",") (clients st)
  = (k1, (Some items0, None)) →
  items0 ≠ [] →
  GetBuildPods cl (pa_Namespace pa) k1 = (k2, (pods, None)) →
  ListPipelineRuns cl (pa_Namespace pa) (Join (activityFilters pa) ",") k2
  = (k3, (Some items1, None)) →
  NoDup (map pr_Name items1) →
  (∀ p, p ∈ pods → podMatches hp pa p = true → allStarted hp p) →
  (∀ n, n ∈ map pr_Name items0 ++ map pr_Name items1 →
        ∃ p, p ∈ pods ∧ podMatches hp pa p = true ∧ runLabel hp p = n) →
  ∃ logged st2,
    loopPass cl hp pollFuel 0 pa buildName ∅ false
      {| clients := k1; writer := writer st; trace := trace st ++ [namesQuery pa] |}
    = (Done (Next (map pr_Name items1, logged, true)), st2)
    ∧ (∀ n, n ∈ map pr_Name items1 → is_Some (logged !! n))
    ∧ ((∀ p, p ∈ pods → podMatches hp pa p = true → runLabel hp p ∈ map pr_Name items1) →
       dom logged = list_to_set (map pr_Name items1))
    ∧ (size logged <? length (map pr_Name items1))%nat = false
    ∧ GetRunningBuildLogs cl hp (S fuel) pollFuel pa buildName st = (Done None, st2)
    ∧ clients st2 = k3
    ∧ ∃ mid,
        trace st2
        = trace st ++ [namesQuery pa; EvGetBuildPods (pa_Namespace pa)] ++ mid ++ [namesQuery pa]
        ∧ Forall writerEvent mid.
Proof.
  intros Hnf Hk1 Hne Hk2 Hk3 Hnd Hstarted Hcover.
  set (st1 := {| clients := k1; writer := writer st; trace := trace st ++ [namesQuery pa] |}).
  set (sorted := sortSlice createdBefore pods).
  set (stp := {| clients := k2; writer := writer st1;
                 trace := trace st1 ++ [EvGetBuildPods (pa_Namespace pa)] |}).
  destruct (streamPods_started cl hp pollFuel 0 pa buildName sorted ∅ false stp Hnf)
    as (st' & Hpods & Hc' & (mid & Hmid & Fmid)).
  { intros p Hp. apply Hstarted. by apply sortSlice_elem_of in Hp. }
  assert (Hfound : existsb (podMatches hp pa) sorted = true).
  { destruct items0 as [|r0 items0]; [done|].
    destruct (Hcover (pr_Name r0)) as (p & Hp & Hm & _).
    { apply elem_of_app. left. apply list_elem_of_here. }
    apply existsb_exists. exists p. split; [|done].
    apply list_elem_of_In, sortSlice_elem_of, Hp. }
  rewrite Hfound in Hpods. cbn [orb] in Hpods.
  set (logged := fold_left (recordSeen hp pa) sorted ∅) in *.
  assert (Hin : ∀ n, n ∈ map pr_Name items1 → is_Some (logged !! n)).
  { intros n Hn. apply recordSeen_lookup. right.
    destruct (Hcover n) as (p & Hp & Hm & Hr); [apply elem_of_app; by right|].
    exists p. split; [by apply sortSlice_elem_of|done]. }
  assert (Hcond : (size logged <? length (map pr_Name items1))%nat = false).
  { apply Nat.ltb_ge. by apply length_le_size. }
  set (st2 := {| clients := k3; writer := writer st';
                 trace := trace st' ++ [namesQuery pa] |}).
  assert (Hpass : loopPass cl hp pollFuel 0 pa buildName ∅ false st1
                  = (Done (Next (map pr_Name items1, logged, true)), st2)).
  { unfold loopPass, bind at 1, callClient at 1. cbn [clients st1]. rewrite Hk2.
    unfold bind at 1. fold sorted. fold stp. rewrite Hpods.
    unfold bind at 1.
    assert (Hk3' : ListPipelineRuns cl (pa_Namespace pa) (Join (activityFilters pa) ",")
                     (clients st') = (k3, (Some items1, None))) by (by rewrite Hc').
    rewrite (getPipelineRunNamesForActivity_ok cl pa st' k3 items1 Hk3').
    by rewrite (right_id_L ∅ (∪)). }
  exists logged, st2. split; [exact Hpass|]. split; [exact Hin|]. split.
  { intros Honly. apply set_eq. intros n.
    rewrite elem_of_dom, elem_of_list_to_set. split; [|by apply Hin].
    intros Hs. apply recordSeen_lookup in Hs as [Hs|(p & Hp & Hm & <-)].
    - rewrite lookup_empty in Hs. by destruct Hs.
    - apply Honly; [by apply sortSlice_elem_of in Hp|done]. }
  split; [exact Hcond|]. split.
  { unfold GetRunningBuildLogs, bind at 1.
    rewrite (getPipelineRunNamesForActivity_ok cl pa st k1 items0 Hk1). fold st1.
    cbn [trackRuns]. rewrite map_size_empty.
    destruct items0 as [|r0 items0]; [done|]. cbn [map length Nat.ltb Nat.leb].
    unfold bind at 1. rewrite Hpass.
    destruct fuel; cbn [trackRuns]; rewrite Hcond; reflexivity. }
  split; [reflexivity|].
  exists mid. split; [|exact Fmid].
  cbn [trace st2]. rewrite Hmid. cbn [trace stp st1]. by rewrite <- !app_assoc.
Qed.

Definition startedPod : Pod := {|
  pod_Name := "pod-a";
  pod_Labels := podLabels "run-a";
  pod_CreationTimestamp := 5;
  pod_Phase := PodRunning;
  pod_Containers := [{| c_Name := "build" |}; {| c_Name := "test" |}];
  pod_Statuses := [Terminated; Running]
|}.

Definition oneStartedPod : Script := {|
  activitiesAt _ := (Some [acmeActivity], None);
  runsAt _ := (Some [acmeRun "run-a" "" 100], None);
  podsAt _ := ([startedPod], None);
  podAt _ _ := (None, None);
  readAt _ _ := ("", None)
|}.

Lemma resolvable_runs_one_pass_witness :
  GetRunningBuildLogs (LW := countingWriter) (scripted oneStartedPod) labelHelpers 1 0
    acmeActivity "7" start
  = (Done None,
     {| clients := 3%nat; writer := 4%nat;
        trace :=
          [EvListPipelineRuns "jx" "owner=acme,repo=widgets,branch=master,build=7";
           EvGetBuildPods "jx";
           EvWriteLog (header labelHelpers "7" "ci" "build");
           EvStreamLog 0 "run-a" "jx" (Some startedPod) {| c_Name := "build" |};
           EvWriteLog (header labelHelpers "7" "ci" "test");
           EvStreamLog 0 "run-a" "jx" (Some startedPod) {| c_Name := "test" |};
           EvListPipelineRuns "jx" "owner=acme,repo=widgets,branch=master,build=7"] |})
  ∧ ∃ logged st2,
      loopPass (LW := countingWriter) (scripted oneStartedPod) labelHelpers 0 0
        acmeActivity "7" ∅ false
        {| clients := 1%nat; writer := writer start;
           trace := trace start ++ [namesQuery acmeActivity] |}
      = (Done (Next (map pr_Name [acmeRun "run-a" "" 100], logged, true)), st2)
      ∧ (∀ n, n ∈ map pr_Name [acmeRun "run-a" "" 100] → is_Some (logged !! n))
      ∧ ((∀ p, p ∈ [startedPod] → podMatches labelHelpers acmeActivity p = true →
               runLabel labelHelpers p ∈ map pr_Name [acmeRun "run-a" "" 100]) →
         dom logged = list_to_set (map pr_Name [acmeRun "run-a" "" 100]))
      ∧ (size logged <? length (map pr_Name [acmeRun "run-a" "" 100]))%nat = false
      ∧ GetRunningBuildLogs (LW := countingWriter) (scripted oneStartedPod) labelHelpers 1 0
          acmeActivity "7" start
        = (Done None, st2)
      ∧ clients st2 = 3%nat
      ∧ ∃ mid,
          trace st2
          = trace start ++ [namesQuery acmeActivity; EvGetBuildPods (pa_Namespace acmeActivity)]
            ++ mid ++ [namesQuery acmeActivity]
          ∧ Forall writerEvent mid.
Proof.
  split; [reflexivity|].
  apply (resolvable_runs_one_pass (scripted oneStartedPod) countingWriter labelHelpers 0 0
           acmeActivity "7" start 1%nat [acmeRun "run-a" "" 100] 2%nat [startedPod]
           3%nat [acmeRun "run-a" "" 100]).
  - exact countingWriter_neverFails.
  - reflexivity.
  - discriminate.
  - reflexivity.
  - reflexivity.
  - apply NoDup_singleton.
  - intros p Hp _ i Hi. apply list_elem_of_singleton in Hp as ->.
    destruct i as [|[|i]]; [reflexivity|reflexivity|simpl in Hi; lia].
  - intros n Hn. exists startedPod. split; [in_list|]. split; [reflexivity|].
    simpl in Hn. apply elem_of_cons in Hn as [->|Hn]; [reflexivity|].
    apply list_elem_of_singleton in Hn as ->. reflexivity.
Defined.

(** ** Query failures *)

Definition emptyPod : Pod := {|
  pod_Name := "";
  pod_Labels := ∅;
  pod_CreationTimestamp := 0;
  pod_Phase := PodUnknown;
  pod_Containers := [];
  pod_Statuses := []
|}.

(** The PipelineRun list fails, and answers with an empty list besides, as
    the typed client does. *)
Definition runListFails : Script := {|
  activitiesAt _ := (Some [acmeActivity], None);
  runsAt _ := (Some [], Some (ExternalError "the server is currently unable to handle the request"));
  podsAt _ := ([], None);
  podAt _ _ := (None, None);
  readAt _ _ := ("", None)
|}.

(** The same failure of a client that answers with a nil list, as the
    fake client does. *)
Definition runListFailsNil : Script := {|
  activitiesAt _ := (Some [acmeActivity], None);
  runsAt _ := (None, Some (ExternalError "the server is currently unable to handle the request"));
  podsAt _ := ([], None);
  podAt _ _ := (None, None);
  readAt _ _ := ("", None)
|}.

Definition pendingPod : Pod := {|
  pod_Name := "pod-a";
  pod_Labels := podLabels "run-a";
  pod_CreationTimestamp := 5;
  pod_Phase := PodPending;
  pod_Containers := [{| c_Name := "build" |}];
  pod_Statuses := [Waiting]
|}.

(** The pod of run-a is pending with one container that has not started,
    and the pod Get of the poll fails (with an empty pod besides). *)
Definition podGetFails : Script := {|
  activitiesAt _ := (Some [acmeActivity], None);
  runsAt _ := (Some [acmeRun "run-a" "" 100], None);
  podsAt _ := ([pendingPod], None);
  podAt _ _ := (Some emptyPod, Some (ExternalError "connection refused"));
  readAt _ _ := ("", None)
|}.

(** C4 does not hold of the code. A failing PipelineRun list of
    [GetTektonPipelinesWithActivePipelineActivity] yields no error: the
    call returns no name, the index of the records and a nil error (and
    panics when the list pointer is nil). A
    failing pod Get in the poll of [waitForContainerToStart] does not end
    [GetRunningBuildLogs]: the error is overwritten, the header line is
    written, [StreamLog] is called on the pod the failed Get returned, and
    the call returns nil. *)
Theorem query_errors_are_dropped :
  (GetTektonPipelinesWithActivePipelineActivity (W := nat) (scripted runListFails) "jx" []
     start).1
  = Done ([], {["acme/widgets/master #7" := Some acmeActivity]}, None)
  ∧ (GetTektonPipelinesWithActivePipelineActivity (W := nat) (scripted runListFailsNil) "jx" []
       start).1
    = Panicked
  ∧ GetRunningBuildLogs (LW := countingWriter) (scripted podGetFails) labelHelpers 3 3
      acmeActivity "7" start
    = (Done None,
       {| clients := 4%nat; writer := 3%nat;
          trace :=
            [EvListPipelineRuns "jx" "owner=acme,repo=widgets,branch=master,build=7";
             EvGetBuildPods "jx";
             EvWriteLog ("waiting for pod pod-a container build to start..." +:+ newline);
             EvSleep;
             EvGetPod "jx" "pod-a";
             EvWriteLog (header labelHelpers "7" "ci" "build");
             EvStreamLog 0 "run-a" "jx" (Some emptyPod) {| c_Name := "build" |};
             EvListPipelineRuns "jx" "owner=acme,repo=widgets,branch=master,build=7"] |}).
Proof. repeat split; reflexivity. Qed.

(** ** Persisted Log Fetcher *)

(** The URL occurs in one of the messages of the error. *)
Definition carriesURL (url : string) (e : error) : bool :=
  existsb (fun m => Contains m url) (error_messages e).

(** C6, as the code has it. When the bucket read fails, the error of
    [buckets.ReadURL] is returned as it is, with nothing attached by
    [StreamPipelinePersistentLogs]; the read is bounded by 20 seconds and
    the writer is not called. *)
Theorem persisted_read_error_is_verbatim {K W : Type} (cl : Clients K) (LW : LogWriter W)
    (logsURL : string) (st : state K W) (k : K) (data : string) (e : error) :
  ReadURL cl logsURL 20 (createBucketHTTPFn cl) (clients st) = (k, (data, Some e)) →
  StreamPipelinePersistentLogs cl logsURL st
  = (Done (Some e),
     {| clients := k; writer := writer st; trace := trace st ++ [EvReadURL logsURL 20] |}).
Proof.
  intros H. unfold StreamPipelinePersistentLogs, bind, callClient. by rewrite H.
Qed.

Definition readTimesOut : Script := {|
  activitiesAt _ := (Some [acmeActivity], None);
  runsAt _ := (Some [], None);
  podsAt _ := ([], None);
  podAt _ _ := (None, None);
  readAt _ _ := ("", Some (ExternalError "context deadline exceeded"))
|}.

Definition logsURL7 : string := "https://storage.example.com/logs/acme/widgets/master/7.log".

Lemma persisted_read_error_is_verbatim_witness :
  StreamPipelinePersistentLogs (LW := countingWriter) (scripted readTimesOut) logsURL7 start
  = (Done (Some (ExternalError "context deadline exceeded")),
     {| clients := 1%nat; writer := 0%nat; trace := [EvReadURL logsURL7 20] |}).
Proof.
  apply (persisted_read_error_is_verbatim (scripted readTimesOut) countingWriter logsURL7
           start 1%nat "" (ExternalError "context deadline exceeded")).
  reflexivity.
Defined.

(** C6 fails as stated: the read of the URL of build 7 runs into its
    deadline, and the error that comes back does not mention the URL. *)
Lemma persisted_read_error_counterexample :
  match (StreamPipelinePersistentLogs (LW := countingWriter) (scripted readTimesOut)
           logsURL7 start).1 with
  | Done (Some e) => carriesURL logsURL7 e = false
  | _ => False
  end.
Proof. reflexivity. Qed.
